(** * Resume screener: the deterministic ATS scoring and ranking core

    A shallow embedding of [resume_screener/agents/ats_scorer.py]
    (class [ATSScoringAgent]) and of the scoring loop and sort of
    [resume_screener/agents/candidate_ranker.py] (class
    [CandidateRankingAgent]), with the properties their specification
    states.

    Conventions of the embedding.
    - Python objects that reach the scorer come from [json.loads]; they are
      values of [pyval].  Dictionaries keep insertion order and are
      association lists with distinct keys.
    - Python [float] is IEEE binary64, here the primitive [float]; every
      arithmetic step is written in the order the source evaluates it.
    - Python [int] is [Z].
    - A [str] is a [string] of characters below 128; [lower], [\d], [\s]
      and [split] are the ASCII restrictions of the Unicode ones.
    - A raised exception is the [Raise] result of the [res] monad.
    - The wall clock and the language-model collaborator are fields of
      an environment record [env]. *)

From Stdlib Require Import ZArith Bool List Ascii String Lia.
From Stdlib Require Import Floats.
From Stdlib Require Import Sorted Permutation.
Import ListNotations.

(* The decimal literals of the source (0.7, 0.40, ...) denote the nearest
   binary64 value, in Python as here. *)
Set Warnings "-inexact-float,-register-all".

Local Open Scope string_scope.
Local Open Scope Z_scope.

(* ================================================================== *)
(** * Exceptions and the result monad                                  *)
(* ================================================================== *)

Inductive exn : Type :=
| TypeError
| AttributeError
| KeyError
| ValueError
| OverflowError
| ZeroDivisionError
| ImportError.

Inductive res (A : Type) : Type :=
| Ok (a : A)
| Raise (e : exn).

Arguments Ok {A} a.
Arguments Raise {A} e.

Definition bind {A B : Type} (m : res A) (k : A -> res B) : res B :=
  match m with
  | Ok a => k a
  | Raise e => Raise e
  end.

Notation "'let*' x ':=' m 'in' k" := (bind m (fun x => k))
  (at level 10, x pattern, m at level 100, k at level 200).

Fixpoint mapM {A B : Type} (f : A -> res B) (l : list A) : res (list B) :=
  match l with
  | [] => Ok []
  | a :: l' =>
      let* b := f a in
      let* bs := mapM f l' in
      Ok (b :: bs)
  end.

(** A [for] loop over [l] threading an accumulator, body first to last. *)
Fixpoint foldM {A S : Type} (f : S -> A -> res S) (l : list A) (s : S) : res S :=
  match l with
  | [] => Ok s
  | a :: l' => let* s' := f s a in foldM f l' s'
  end.

(* ================================================================== *)
(** * Strings                                                          *)
(* ================================================================== *)

Definition is_digit (c : ascii) : bool :=
  let n := N_of_ascii c in (48 <=? n)%N && (n <=? 57)%N.

(** [str.isspace] on code points below 128: TAB..CR, FS..US and space. *)
Definition is_space (c : ascii) : bool :=
  let n := N_of_ascii c in
  ((9 <=? n)%N && (n <=? 13)%N) || ((28 <=? n)%N && (n <=? 32)%N).

Definition lower_char (c : ascii) : ascii :=
  let n := N_of_ascii c in
  if (65 <=? n)%N && (n <=? 90)%N then ascii_of_N (n + 32) else c.

(** [s.lower()] *)
Fixpoint lower (s : string) : string :=
  match s with
  | EmptyString => EmptyString
  | String c s' => String (lower_char c) (lower s')
  end.

(** [a in b] for two strings: [a] occurs in [b] as a contiguous block. *)
Fixpoint str_in (a b : string) : bool :=
  if String.prefix a b then true
  else match b with
       | EmptyString => false
       | String _ b' => str_in a b'
       end.

(** Membership of a string in a list of strings. *)
Definition mem (x : string) (l : list string) : bool :=
  existsb (String.eqb x) l.

(** Insertion into a list that stands for a [set]: no effect when present. *)
Definition set_add (x : string) (l : list string) : list string :=
  if mem x l then l else l ++ [x].

(** [set(l)]: the distinct elements, in order of first occurrence.  Python
    leaves the iteration order of a set unspecified; the model fixes this
    one. *)
Definition to_set (l : list string) : list string :=
  fold_left (fun acc x => set_add x acc) l [].

(** [a.union(b)], [a.intersection(b)], [a - b] *)
Definition set_union (a b : list string) : list string :=
  fold_left (fun acc x => set_add x acc) b a.
Definition set_inter (a b : list string) : list string :=
  filter (fun x => mem x b) a.
Definition set_diff (a b : list string) : list string :=
  filter (fun x => negb (mem x b)) a.

(** The characters of a string, each as a one-character string. *)
Fixpoint chars (s : string) : list string :=
  match s with
  | EmptyString => []
  | String c s' => String c EmptyString :: chars s'
  end.

(** [s.split()]: maximal runs of non-space characters.  [cur] is the word
    being read, reversed. *)
Fixpoint split_ws_aux (s : string) (cur : list ascii) : list string :=
  let flush (rest : list string) :=
    match cur with
    | [] => rest
    | _ => string_of_list_ascii (rev cur) :: rest
    end in
  match s with
  | EmptyString => flush []
  | String c s' =>
      if is_space c then flush (split_ws_aux s' [])
      else split_ws_aux s' (c :: cur)
  end.

Definition split_ws (s : string) : list string := split_ws_aux s [].

(** [sep.join(l)] for a list of strings. *)
Fixpoint join (sep : string) (l : list string) : string :=
  match l with
  | [] => EmptyString
  | [x] => x
  | x :: l' => x ++ sep ++ join sep l'
  end.

(* ================================================================== *)
(** * Regular expressions of the [re] module                           *)
(* ================================================================== *)

(** The fragment the scorer's patterns use.  Repetition is over a single
    character class, as in every pattern of the source. *)
Inductive regex : Type :=
| RChar (p : ascii -> bool)        (* one character of a class        *)
| RLit (s : string)                (* a literal                       *)
| RSeq (r1 r2 : regex)             (* r1 r2                           *)
| RAlt (r1 r2 : regex)             (* r1|r2                           *)
| RStar (p : ascii -> bool)        (* zero or more of a class, greedy *)
| ROpt (r : regex)                 (* r?, greedy                      *)
| RGroup (r : regex).              (* (r), capturing                  *)

(** Captured groups, latest first. *)
Definition captures := list string.

(** The prefix of [s] that was consumed to leave [rest]. *)
Definition consumed (s rest : string) : string :=
  substring 0 (String.length s - String.length rest) s.

Section Matcher.
Context {T : Type}.

Fixpoint match_star (p : ascii -> bool) (s : string)
         (k : string -> option T) : option T :=
  match s with
  | String c s' =>
      if p c then
        match match_star p s' k with
        | Some t => Some t
        | None => k s
        end
      else k s
  | EmptyString => k s
  end.

(** Backtracking matcher in continuation style: alternatives are tried
    left to right and repetitions longest first, which is the order of
    Python's engine. *)
Fixpoint rmatch (r : regex) (s : string) (caps : captures)
         (k : string -> captures -> option T) : option T :=
  match r with
  | RChar p =>
      match s with
      | String c s' => if p c then k s' caps else None
      | EmptyString => None
      end
  | RLit l =>
      if String.prefix l s
      then k (substring (String.length l) (String.length s - String.length l) s) caps
      else None
  | RSeq r1 r2 => rmatch r1 s caps (fun s1 c1 => rmatch r2 s1 c1 k)
  | RAlt r1 r2 =>
      match rmatch r1 s caps k with
      | Some t => Some t
      | None => rmatch r2 s caps k
      end
  | RStar p => match_star p s (fun s1 => k s1 caps)
  | ROpt r1 =>
      match rmatch r1 s caps k with
      | Some t => Some t
      | None => k s caps
      end
  | RGroup r1 =>
      rmatch r1 s caps (fun s1 c1 => k s1 (consumed s s1 :: c1))
  end.
End Matcher.

(** [re.search(r, s)]: the match at the leftmost position that has one;
    the result lists the groups in order, [group(1)] first. *)
Fixpoint re_search (r : regex) (s : string) : option (list string) :=
  match rmatch r s [] (fun _ caps => Some (rev caps)) with
  | Some g => Some g
  | None =>
      match s with
      | EmptyString => None
      | String _ s' => re_search r s'
      end
  end.

Definition RPlus (p : ascii -> bool) : regex := RSeq (RChar p) (RStar p).

Fixpoint RAlts (l : list string) : regex :=
  match l with
  | [] => RLit "x"
  | [a] => RLit a
  | a :: l' => RAlt (RLit a) (RAlts l')
  end.

(** The pattern [( \d+ \.? \d* )], one capturing group. *)
Definition re_number : regex :=
  RGroup (RSeq (RPlus is_digit) (RSeq (ROpt (RLit ".")) (RStar is_digit))).

(** The pattern [number \s* (?:-|to) \s* number], two capturing groups. *)
Definition re_range : regex :=
  RSeq re_number
    (RSeq (RStar is_space)
       (RSeq (RAlt (RLit "-") (RLit "to"))
          (RSeq (RStar is_space) re_number))).

(** The pattern [number \s* years?]. *)
Definition re_years : regex :=
  RSeq re_number (RSeq (RStar is_space) (RSeq (RLit "year") (ROpt (RLit "s")))).

(** The pattern [number \s* months?]. *)
Definition re_months : regex :=
  RSeq re_number (RSeq (RStar is_space) (RSeq (RLit "month") (ROpt (RLit "s")))).

(** The pattern [(\d{4})]. *)
Definition re_year4 : regex :=
  RGroup (RSeq (RChar is_digit) (RSeq (RChar is_digit)
            (RSeq (RChar is_digit) (RChar is_digit)))).

Definition month_names : list string :=
  ["jan"; "feb"; "mar"; "apr"; "may"; "jun";
   "jul"; "aug"; "sep"; "oct"; "nov"; "dec"].

(** The pattern [(jan|feb|mar|apr|may|jun|jul|aug|sep|oct|nov|dec)]. *)
Definition re_month : regex := RGroup (RAlts month_names).

(** [m.group(1)] and [m.group(2)] of a successful search. *)
Definition group1 (g : list string) : string := nth 0 g "".
Definition group2 (g : list string) : string := nth 1 g "".

(* ================================================================== *)
(** * Numbers                                                          *)
(* ================================================================== *)

Local Open Scope float_scope.

(** The binary64 value nearest to an integer (ties to even). *)
Definition SF_of_Z (z : Z) : spec_float := binary_normalize prec emax z 0%Z false.
Definition float_of_Z (z : Z) : float := SF2Prim (SF_of_Z z).

(** [float(z)] for a Python [int]: raises when the integer is beyond the
    binary64 range. *)
Definition py_float_of_int (z : Z) : res float :=
  match SF_of_Z z with
  | S754_infinity _ => Raise OverflowError
  | sf => Ok (SF2Prim sf)
  end.

(** An integer as an exact, unrounded significand with exponent 0. *)
Definition SF_exact (z : Z) : spec_float :=
  match z with
  | Z0 => S754_zero false
  | Zpos p => S754_finite false p 0
  | Zneg p => S754_finite true p 0
  end.

(** The correctly rounded quotient of two integers. *)
Definition quot_float (a b : Z) : float :=
  SF2Prim (SFdiv prec emax (SF_exact a) (SF_exact b)).

(** [a / b] for two Python [int]s (true division, correctly rounded).  The
    operands in the scorer are element counts and small levels, for which
    the quotient is in range. *)
Definition py_truediv_int (a b : Z) : res float :=
  if (b =? 0)%Z then Raise ZeroDivisionError else Ok (quot_float a b).

(** The value of a run of decimal digits; reading stops at the first
    character that is not a digit.  Returns the value, the number of
    digits read, and the rest. *)
Fixpoint read_digits (s : string) (acc : Z) (n : nat) : Z * nat * string :=
  match s with
  | String c s' =>
      if is_digit c
      then read_digits s' (10 * acc + (Z.of_N (N_of_ascii c) - 48))%Z (S n)
      else (acc, n, s)
  | EmptyString => (acc, n, s)
  end.

(** [float(s)] for [s] of the form [\d+\.?\d*], the only form the source
    passes to [float]: the decimal [N / 10^k], correctly rounded, where
    [N] is the integer all the digits spell and [k] the number of digits
    after the point. *)
Definition float_of_decimal (s : string) : float :=
  let '(ip, _, rest) := read_digits s 0%Z 0%nat in
  let '(num, k) :=
    match rest with
    | String "."%char s' =>
        let '(v, k, _) := read_digits s' ip 0%nat in (v, k)
    | _ => (ip, 0%nat)
    end in
  quot_float num (10 ^ Z.of_nat k).

(** [round(x, 2)]: the decimal with two places nearest to the exact value
    of [x] (ties to the even last digit), converted back to the nearest
    binary64.  Infinities and NaN round to themselves. *)
Definition round_half_even (num den : Z) : Z :=
  let q := (num / den)%Z in
  let r := (num mod den)%Z in
  match (2 * r ?= den)%Z with
  | Lt => q
  | Gt => (q + 1)%Z
  | Eq => if Z.even q then q else (q + 1)%Z
  end.

Definition py_round2 (x : float) : float :=
  match Prim2SF x with
  | S754_finite s m e =>
      let hundredths :=
        match e with
        | Zneg p => round_half_even (Zpos m * 100) (2 ^ Zpos p)
        | _ => (Zpos m * 100 * 2 ^ e)%Z
        end in
      let r := quot_float hundredths 100 in
      if s then (- r) else r
  | _ => x
  end.

(** [min(a, b)] and [max(a, b)] of two floats: the first argument unless
    the second is strictly smaller (larger). *)
Definition py_min (a b : float) : float := if b <? a then b else a.
Definition py_max (a b : float) : float := if a <? b then b else a.

(** [a >= b] and [a > b] on floats. *)
Definition py_ge (a b : float) : bool := b <=? a.
Definition py_gt (a b : float) : bool := b <? a.

(* ================================================================== *)
(** * Python values                                                    *)
(* ================================================================== *)

Inductive pyval : Type :=
| PNone
| PBool (b : bool)
| PInt (z : Z)
| PFloat (f : float)
| PStr (s : string)
| PList (l : list pyval)
| PDict (d : list (string * pyval)).

Definition dict : Type := list (string * pyval).

Fixpoint lookup {V : Type} (k : string) (d : list (string * V)) : option V :=
  match d with
  | [] => None
  | (k', v) :: d' => if String.eqb k k' then Some v else lookup k d'
  end.

(** [d[k] = v] on a dictionary: replaces in place, or appends a new key. *)
Fixpoint dict_set {V : Type} (k : string) (v : V) (d : list (string * V))
  : list (string * V) :=
  match d with
  | [] => [(k, v)]
  | (k', v') :: d' =>
      if String.eqb k k' then (k', v) :: d' else (k', v') :: dict_set k v d'
  end.

(** [bool(v)] *)
Definition truthy (v : pyval) : bool :=
  match v with
  | PNone => false
  | PBool b => b
  | PInt z => negb (z =? 0)%Z
  | PFloat f => negb (f =? 0)
  | PStr s => negb (String.eqb s "")
  | PList l => match l with [] => false | _ => true end
  | PDict d => match d with [] => false | _ => true end
  end.

(** [v.get(k, dflt)]: only dictionaries have the method. *)
Definition py_get (v : pyval) (k : string) (dflt : pyval) : res pyval :=
  match v with
  | PDict d => Ok (match lookup k d with Some x => x | None => dflt end)
  | _ => Raise AttributeError
  end.

(** [v[k]] with a string key. *)
Definition py_getitem (v : pyval) (k : string) : res pyval :=
  match v with
  | PDict d => match lookup k d with Some x => Ok x | None => Raise KeyError end
  | _ => Raise TypeError
  end.

Definition is_str (k : string) (v : pyval) : bool :=
  match v with PStr s => String.eqb s k | _ => false end.

(** [k in v] with a string [k]. *)
Definition py_contains (k : string) (v : pyval) : res bool :=
  match v with
  | PDict d => Ok (match lookup k d with Some _ => true | None => false end)
  | PStr s => Ok (str_in k s)
  | PList l => Ok (existsb (is_str k) l)
  | _ => Raise TypeError
  end.

(** The elements a [for] loop over [v] visits. *)
Definition py_iter (v : pyval) : res (list pyval) :=
  match v with
  | PList l => Ok l
  | PStr s => Ok (map PStr (chars s))
  | PDict d => Ok (map (fun kv => PStr (fst kv)) d)
  | _ => Raise TypeError
  end.

(** [v.lower()]: only strings have the method. *)
Definition py_lower (v : pyval) : res string :=
  match v with
  | PStr s => Ok (lower s)
  | _ => Raise AttributeError
  end.

(** A value used where the callee insists on a [str] ([re.search],
    [str + v], [sep.join]). *)
Definition py_str (v : pyval) : res string :=
  match v with
  | PStr s => Ok s
  | _ => Raise TypeError
  end.

(** [set(x.lower() for x in v)] *)
Definition lower_set (v : pyval) : res (list string) :=
  let* items := py_iter v in
  let* ls := mapM py_lower items in
  Ok (to_set ls).

(** [v[:3]] followed by iteration.  Only lists and strings can be
    sliced. *)
Definition py_slice3 (v : pyval) : res (list pyval) :=
  match v with
  | PList l => Ok (firstn 3 l)
  | PStr s => Ok (firstn 3 (map PStr (chars s)))
  | _ => Raise TypeError
  end.

(** A number that is an [int] until a [float] is added to it. *)
Inductive pynum : Type :=
| NInt (z : Z)
| NFloat (f : float).

Definition num_add_int (m : pynum) (k : Z) : pynum :=
  match m with
  | NInt z => NInt (z + k)
  | NFloat f => NFloat (f + float_of_Z k)
  end.

Definition num_add_float (m : pynum) (x : float) : pynum :=
  match m with
  | NInt z => NFloat (float_of_Z z + x)
  | NFloat f => NFloat (f + x)
  end.

(** [m / n] where [n] is a [len]. *)
Definition num_div_len (m : pynum) (n : nat) : res float :=
  match m with
  | NInt z => py_truediv_int z (Z.of_nat n)
  | NFloat f =>
      match n with
      | O => Raise ZeroDivisionError
      | _ => Ok (f / float_of_Z (Z.of_nat n))
      end
  end.

(** [len(a) / len(b)] *)
Definition len_ratio {A B : Type} (a : list A) (b : list B) : res float :=
  py_truediv_int (Z.of_nat (List.length a)) (Z.of_nat (List.length b)).

(* ================================================================== *)
(** * The environment of a call                                        *)
(* ================================================================== *)

(** What a call reads from outside its arguments: the clock behind
    [datetime.now()] (one reading per call) and the replies of the
    language-model collaborator, [_get_comprehensive_analysis] for the
    scorer and [_generate_ranking_insights] for the ranker.  Both build a
    prompt from their arguments, which can raise, and then go to the
    network. *)
Record env : Type := {
  now_year : Z;
  now_month : Z;
  comprehensive_analysis : pyval -> pyval -> res pyval;
  ranking_insights : pyval -> list pyval -> res pyval
}.

(* ================================================================== *)
(** * ats_scorer.py: class ATSScoringAgent                             *)
(* ================================================================== *)

(** ** _calculate_skill_match *)

(** The inner loop: does some candidate skill contain [req] or occur in
    it?  The loop stops at the first one. *)
Definition partial_match (req : string) (candidate_skills : list string) : bool :=
  existsb (fun cand => str_in req cand || str_in cand req) candidate_skills.

(** One round of the outer loop on the counter [matches]. *)
Definition skill_step (candidate_skills : list string)
           (matches : pynum) (req_skill : string) : pynum :=
  if mem req_skill candidate_skills then num_add_int matches 1
  else if partial_match req_skill candidate_skills
       then num_add_float matches 0.5
       else matches.

Definition count_matches (required_skills candidate_skills : list string) : pynum :=
  fold_left (skill_step candidate_skills) required_skills (NInt 0).

Definition _calculate_skill_match
           (required_skills candidate_skills : list string) : res float :=
  match required_skills with
  | [] => Ok 100.0
  | _ =>
      let matches := count_matches required_skills candidate_skills in
      let* q := num_div_len matches (List.length required_skills) in
      Ok (py_min (q * 100.0) 100.0)
  end.

(** ** _calculate_total_experience_years *)

(** [int(s)] for a run of digits. *)
Definition int_of_digits (s : string) : Z := fst (fst (read_digits s 0%Z 0%nat)).

Definition month_table : list (string * Z) :=
  [("jan", 1); ("feb", 2); ("mar", 3); ("apr", 4); ("may", 5); ("jun", 6);
   ("jul", 7); ("aug", 8); ("sep", 9); ("oct", 10); ("nov", 11); ("dec", 12)]%Z.

(** The month a lower-cased date names, 6 when it names none. *)
Definition month_of (date_lower : string) : Z :=
  let tok := match re_search re_month date_lower with
             | Some g => group1 g
             | None => ""
             end in
  match lookup tok month_table with
  | Some m => m
  | None => 6%Z
  end.

(** The end of a position: [None] stands for the [continue] taken when a
    closed position has no year in its end date. *)
Definition end_of_position (E : env) (end_date : pyval) : res (option (Z * Z)) :=
  if negb (truthy end_date) then Ok (Some (now_year E, now_month E))
  else
    let* el := py_lower end_date in
    if str_in "present" el || str_in "current" el
    then Ok (Some (now_year E, now_month E))
    else
      let* ed := py_str end_date in
      match re_search re_year4 ed with
      | None => Ok None
      | Some g => Ok (Some (int_of_digits (group1 g), month_of el))
      end.

(** The body of the loop over the experience entries. *)
Definition experience_step (E : env) (total_years : float) (exp : pyval) : res float :=
  let* has_duration := py_contains "duration" exp in
  let* duration :=
    if has_duration then py_getitem exp "duration" else Ok (PBool false) in
  if truthy duration then
    let* duration_text := py_lower duration in
    let years :=
      match re_search re_years duration_text with
      | Some g => float_of_decimal (group1 g)
      | None => 0
      end in
    let months :=
      match re_search re_months duration_text with
      | Some g => float_of_decimal (group1 g) / 12.0
      | None => 0
      end in
    Ok (total_years + (years + months))
  else
    let* start_date := py_get exp "start_date" (PStr "") in
    let* end_date := py_get exp "end_date" (PStr "") in
    if negb (truthy start_date) then Ok total_years
    else
      let* sd := py_str start_date in
      match re_search re_year4 sd with
      | None => Ok total_years
      | Some g =>
          let start_year := int_of_digits (group1 g) in
          let* ends := end_of_position E end_date in
          match ends with
          | None => Ok total_years
          | Some (end_year, end_month) =>
              let start_month := month_of (lower sd) in
              let experience_years :=
                float_of_Z (end_year - start_year)
                + float_of_Z (end_month - start_month) / 12.0 in
              if py_gt experience_years 0
              then Ok (total_years + experience_years)
              else Ok total_years
          end
      end.

Definition _calculate_total_experience_years (E : env) (experience : pyval) : res float :=
  let* entries := py_iter experience in
  foldM (experience_step E) entries 0.

(** ** _calculate_experience_match *)

(** The required years read from the posting; 0 when nothing is read. *)
Definition parsed_required_years (req_exp_str : pyval) : float :=
  match req_exp_str with
  | PStr s =>
      match re_search re_range s with
      | Some g =>
          let min_years := float_of_decimal (group1 g) in
          let max_years := float_of_decimal (group2 g) in
          (min_years + max_years) / 2.0
      | None =>
          match re_search re_number s with
          | Some g => float_of_decimal (group1 g)
          | None => 0.0
          end
      end
  | _ => 0.0
  end.

Definition required_years_of (req_exp_str : pyval) : float :=
  let required_years := parsed_required_years req_exp_str in
  if required_years <=? 0 then 2.0 else required_years.

Definition experience_score (candidate_years required_years : float) : float :=
  if py_ge candidate_years required_years then 100.0
  else if candidate_years <=? 0 then 0.0
  else (candidate_years / required_years) * 100.0.

Definition _calculate_experience_match (E : env)
           (job_requirements resume_data : pyval) : res float :=
  let* req_exp_str :=
    py_get job_requirements "years_of_experience" (PStr "Not specified") in
  let required_years := required_years_of req_exp_str in
  let* experience := py_get resume_data "experience" (PList []) in
  let* candidate_years := _calculate_total_experience_years E experience in
  Ok (experience_score candidate_years required_years).

(** ** _calculate_education_match *)

Definition education_levels : list (string * Z) :=
  [("high school", 1); ("associate", 2); ("diploma", 2);
   ("bachelor", 3); ("bs", 3); ("ba", 3); ("undergraduate", 3);
   ("master", 4); ("mba", 4); ("graduate", 4);
   ("phd", 5); ("doctorate", 5)]%Z.

(** The loop over the table on one text, from the level [acc] so far. *)
Definition scan_levels (text : string) (acc : Z) : Z :=
  fold_left
    (fun lvl '(level, score) => if str_in level text then Z.max lvl score else lvl)
    education_levels acc.

Definition education_score (candidate_level required_level : Z) : res float :=
  if (candidate_level >=? required_level)%Z then Ok 100.0
  else if (candidate_level =? 0)%Z then Ok 0.0
  else
    let* q := py_truediv_int candidate_level required_level in
    Ok (q * 100.0).

Definition _calculate_education_match
           (job_requirements resume_data : pyval) : res float :=
  let* er := py_get job_requirements "education_requirements" (PStr "") in
  let* education_req := py_lower er in
  let* candidate_education := py_get resume_data "education" (PList []) in
  let required_level := scan_levels education_req 0 in
  let required_level := if (required_level =? 0)%Z then 3%Z else required_level in
  let* entries := py_iter candidate_education in
  let* candidate_level :=
    foldM (fun lvl edu =>
             let* d := py_get edu "degree" (PStr "") in
             let* degree := py_lower d in
             Ok (scan_levels degree lvl))
          entries 0%Z in
  education_score candidate_level required_level.

(** ** _calculate_keyword_density *)

(** [for x in v: keywords.add(x.lower())] *)
Definition add_lowered (keywords : list string) (v : pyval) : res (list string) :=
  let* items := py_iter v in
  foldM (fun kw x => let* l := py_lower x in Ok (set_add l kw)) items keywords.

Definition common_words : list string :=
  ["and"; "the"; "to"; "of"; "for"; "in"; "a"; "with"; "on"; "an";
   "this"; "that"; "be"; "as"].

Definition keep_keyword (k : string) : bool :=
  negb (mem k common_words) && (2 <? String.length k)%nat.

(** The keyword set of a posting. *)
Definition job_keywords (job_requirements : pyval) : res (list string) :=
  let* rs := py_get job_requirements "required_skills" (PList []) in
  let* k1 := add_lowered [] rs in
  let* ps := py_get job_requirements "preferred_skills" (PList []) in
  let* k2 := add_lowered k1 ps in
  let* cs := py_get job_requirements "critical_keywords" (PList []) in
  let* k3 := add_lowered k2 cs in
  Ok (filter keep_keyword k3).

(** [" ".join(v)] *)
Definition py_join_space (v : pyval) : res string :=
  let* items := py_iter v in
  let* strs := mapM py_str items in
  Ok (join " " strs).

(** [text += " " + exp.get(key, "")] *)
Definition append_field (text : string) (exp : pyval) (key : string) : res string :=
  let* v := py_get exp key (PStr "") in
  let* s := py_str v in
  Ok (text ++ (" " ++ s)).

(** The text of a resume the keywords are looked up in, before
    lower-casing. *)
Definition resume_corpus (resume_data : pyval) : res string :=
  let* sk := py_get resume_data "skills" (PList []) in
  let* joined := py_join_space sk in
  let resume_text := "" ++ joined in
  let* su := py_get resume_data "summary" (PStr "") in
  let* summary := py_str su in
  let resume_text := resume_text ++ (" " ++ summary) in
  let* ex := py_get resume_data "experience" (PList []) in
  let* entries := py_iter ex in
  foldM (fun text exp =>
           let* t1 := append_field text exp "title" in
           let* t2 := append_field t1 exp "company" in
           append_field t2 exp "description")
        entries resume_text.

Definition _calculate_keyword_density
           (job_requirements resume_data : pyval) : res float :=
  let* keywords := job_keywords job_requirements in
  match keywords with
  | [] => Ok 100.0
  | _ =>
      let* corpus := resume_corpus resume_data in
      let resume_text := lower corpus in
      let matches := filter (fun keyword => str_in keyword resume_text) keywords in
      let* q := len_ratio matches keywords in
      Ok (q * 100.0)
  end.

(** ** _calculate_title_match *)

Definition title_step (job_title_words : list string)
           (best_match : float) (exp : pyval) : res float :=
  let* t := py_get exp "title" (PStr "") in
  let* candidate_title := py_lower t in
  let candidate_title_words := to_set (split_ws candidate_title) in
  let intersection := set_inter job_title_words candidate_title_words in
  let union := set_union job_title_words candidate_title_words in
  match union with
  | [] => Ok best_match
  | _ =>
      let* q := len_ratio intersection union in
      let similarity := q * 100.0 in
      Ok (py_max best_match similarity)
  end.

Definition _calculate_title_match (job_title experience : pyval) : res float :=
  if negb (truthy job_title) || negb (truthy experience) then Ok 50.0
  else
    let* jt := py_lower job_title in
    let job_title_words := to_set (split_ws jt) in
    let* recent := py_slice3 experience in
    foldM (title_step job_title_words) recent 0.0.

(** ** score_resume *)

(** The dictionary [score_resume] returns.  [error] is the exception the
    handler caught; the two keys the fallback dictionary lacks are
    [None] there. *)
Record score_result : Type := {
  error : option exn;
  ats_score : float;
  skill_match : float;
  experience_match : float;
  education_match : float;
  keyword_density : float;
  title_match : float;
  matching_skills : list string;
  missing_skills : list string;
  detailed_analysis : pyval;
  strengths : option pyval;
  improvement_areas : option pyval
}.

(** The experience entries the title matcher is given. *)
Definition title_experience (resume_data : pyval) : res pyval :=
  let* experience := py_get resume_data "experience" (PList []) in
  if truthy experience then Ok experience
  else
    let* has_alt := py_contains "workExperience" resume_data in
    if has_alt
    then py_get resume_data "workExperience" (PList [])
    else Ok experience.

(** The weighted sum before the cap. *)
Definition weighted_sum (skill experience education keyword title : float) : float :=
  skill * 0.40 + experience * 0.30 + education * 0.15
  + keyword * 0.10 + title * 0.05.

(** The block under [try]. *)
Definition score_resume_try (E : env) (job_requirements resume_data : pyval)
  : res score_result :=
  let* job_title := py_get job_requirements "job_title" (PStr "") in
  let* rs := py_get job_requirements "required_skills" (PList []) in
  let* required_skills := lower_set rs in
  let* ps := py_get job_requirements "preferred_skills" (PList []) in
  let* preferred_skills := lower_set ps in
  let all_required := set_union required_skills preferred_skills in
  let* sk := py_get resume_data "skills" (PList []) in
  let* candidate_skills := lower_set sk in
  let* experience := title_experience resume_data in
  let* required_match := _calculate_skill_match required_skills candidate_skills in
  let* preferred_match := _calculate_skill_match preferred_skills candidate_skills in
  let skill_match_score := (required_match * 0.7) + (preferred_match * 0.3) in
  let* experience_match_score :=
    _calculate_experience_match E job_requirements resume_data in
  let* education_match_score :=
    _calculate_education_match job_requirements resume_data in
  let* keyword_score := _calculate_keyword_density job_requirements resume_data in
  let* title_match_score := _calculate_title_match job_title experience in
  let ats := weighted_sum skill_match_score experience_match_score
               education_match_score keyword_score title_match_score in
  let* detailed_analysis_result :=
    comprehensive_analysis E job_requirements resume_data in
  let* analysis := py_get detailed_analysis_result "analysis" (PStr "") in
  let* strong := py_get detailed_analysis_result "strengths" (PList []) in
  let* improve := py_get detailed_analysis_result "improvement_areas" (PList []) in
  Ok {| error := None;
        ats_score := py_min ats 100.0;
        skill_match := skill_match_score;
        experience_match := experience_match_score;
        education_match := education_match_score;
        keyword_density := keyword_score;
        title_match := title_match_score;
        matching_skills := set_inter candidate_skills all_required;
        missing_skills := set_diff all_required candidate_skills;
        detailed_analysis := analysis;
        strengths := Some strong;
        improvement_areas := Some improve |}.

(** The dictionary the [except] handler returns. *)
Definition fallback_result (e : exn) : score_result :=
  {| error := Some e;
     ats_score := 50.0;
     skill_match := 50.0;
     experience_match := 50.0;
     education_match := 50.0;
     keyword_density := 50.0;
     title_match := 50.0;
     matching_skills := [];
     missing_skills := [];
     detailed_analysis := PStr "Error analyzing resume";
     strengths := None;
     improvement_areas := None |}.

Definition score_resume (E : env) (job_requirements resume_data : pyval)
  : score_result :=
  match score_resume_try E job_requirements resume_data with
  | Ok result => result
  | Raise e => fallback_result e
  end.

(* ================================================================== *)
(** * candidate_ranker.py: class CandidateRankingAgent                 *)
(* ================================================================== *)

(** [v * w] for a float [w]: numbers only. *)
Definition py_times (v : pyval) (w : float) : res float :=
  match v with
  | PFloat f => Ok (f * w)
  | PInt z => let* f := py_float_of_int z in Ok (f * w)
  | PBool b => Ok ((if b then 1.0 else 0.0) * w)
  | _ => Raise TypeError
  end.

(** The value the loop body stores under ["composite_score"]. *)
Definition composite_of (candidate : pyval) : res float :=
  let* ats_score := py_get candidate "ats_score" (PFloat 50.0) in
  let* skill_match := py_get candidate "skill_match" (PFloat 50.0) in
  let* experience_match := py_get candidate "experience_match" (PFloat 50.0) in
  let* education_match := py_get candidate "education_match" (PFloat 50.0) in
  let* authenticity_score := py_get candidate "authenticity_score" (PFloat 0.5) in
  let* au := py_times authenticity_score 0.4 in
  let authenticity_factor := 0.8 + au in
  let* a := py_times ats_score 0.5 in
  let* s := py_times skill_match 0.3 in
  let* e := py_times experience_match 0.1 in
  let* d := py_times education_match 0.1 in
  let composite_score := (a + s + e + d) * authenticity_factor in
  Ok (py_min (py_round2 composite_score) 100.0).

(** [candidate["composite_score"] = v] *)
Definition set_composite (candidate : pyval) (v : float) : res pyval :=
  match candidate with
  | PDict d => Ok (PDict (dict_set "composite_score" (PFloat v) d))
  | _ => Raise TypeError
  end.

(** The scoring loop.  It updates the candidates in place, so when a
    candidate raises, the ones before it keep their new key: the list is
    returned together with the exception, if any. *)
Fixpoint score_candidates (candidates : list pyval) : list pyval * option exn :=
  match candidates with
  | [] => ([], None)
  | c :: rest =>
      match (let* v := composite_of c in set_composite c v) with
      | Raise e => (c :: rest, Some e)
      | Ok c' =>
          let '(rest', err) := score_candidates rest in
          (c' :: rest', err)
      end
  end.

(** The sort key [x.get("composite_score", 0)].  After the loop every
    candidate holds a float under that key. *)
Definition sort_key (c : pyval) : float :=
  match c with
  | PDict d =>
      match lookup "composite_score" d with
      | Some (PFloat f) => f
      | _ => 0
      end
  | _ => 0
  end.

(** [sorted(l, key=key, reverse=True)].  Python's sort is stable and
    compares keys with [<] only; on keys that [<] orders totally every
    such sort returns the list computed here, by insertion from the
    right. *)
Section Sorted.
Context {A : Type} (key : A -> float).

Fixpoint insert_desc (x : A) (l : list A) : list A :=
  match l with
  | [] => [x]
  | y :: l' => if key x <? key y then y :: insert_desc x l' else x :: y :: l'
  end.

Definition sorted_desc (l : list A) : list A := fold_right insert_desc [] l.
End Sorted.

Record ranking : Type := {
  rank_error : option exn;
  ranked_candidates : list pyval;
  insights : pyval
}.

Definition rank_candidates (E : env) (job_requirements : pyval)
           (candidates : list pyval) : ranking :=
  match candidates with
  | [] => {| rank_error := None;
             ranked_candidates := [];
             insights := PStr "No candidates to rank." |}
  | _ =>
      let failed e scored :=
        {| rank_error := Some e;
           ranked_candidates := scored;
           insights := PStr "Error generating candidate rankings." |} in
      match score_candidates candidates with
      | (scored, Some e) => failed e scored
      | (scored, None) =>
          let ranked := sorted_desc sort_key scored in
          match ranking_insights E job_requirements ranked with
          | Ok text =>
              {| rank_error := None;
                 ranked_candidates := ranked;
                 insights := text |}
          | Raise e => failed e scored
          end
      end
  end.

(* ================================================================== *)
(** * The specification's vocabulary                                   *)
(* ================================================================== *)

(** [a] is a substring of [b]. *)
Definition occurs_in (a b : string) : Prop :=
  exists pre post, b = pre ++ a ++ post.

(** A required skill that is no element of the candidate set matches it
    partially when it is a substring of a candidate skill or contains
    one. *)
Definition partially_matched (req : string) (candidate_skills : list string) : Prop :=
  exists cand, In cand candidate_skills /\ (occurs_in req cand \/ occurs_in cand req).

(** A value whose sign bit is clear, or NaN. *)
Definition sf_nonneg (x : spec_float) : Prop :=
  match x with
  | S754_zero s | S754_infinity s | S754_finite s _ _ => s = false
  | S754_nan => True
  end.

Definition nonneg (x : float) : Prop := sf_nonneg (Prim2SF x).


(** ** The duration parser in the specification's terms *)

(** The text an entry stores under [k]; an absent key and a null read as
    the empty text.  [None] when the entry is no record or stores
    something else under [k]. *)
Definition text_field (k : string) (exp : pyval) : option string :=
  match exp with
  | PDict d =>
      match lookup k d with
      | None | Some PNone => Some ""
      | Some (PStr s) => Some s
      | Some _ => None
      end
  | _ => None
  end.

(** An experience entry of the data model: a record whose duration,
    start date and end date are free text, null or absent. *)
Definition wf_entry (exp : pyval) : bool :=
  match text_field "duration" exp,
        text_field "start_date" exp,
        text_field "end_date" exp with
  | Some _, Some _, Some _ => true
  | _, _, _ => false
  end.

(** The figure in front of "year(s)" in a lower-cased duration, and the
    one in front of "month(s)"; 0 when the pattern finds none. *)
Definition years_figure (t : string) : float :=
  match re_search re_years t with
  | Some g => float_of_decimal (group1 g)
  | None => 0
  end.

Definition months_figure (t : string) : float :=
  match re_search re_months t with
  | Some g => float_of_decimal (group1 g)
  | None => 0
  end.

(** The first run of four digits in a date. *)
Definition year_in (date : string) : option Z :=
  match re_search re_year4 date with
  | Some g => Some (int_of_digits (group1 g))
  | None => None
  end.

(** The month a date names by a three-letter token, 6 when it names
    none. *)
Definition month_or_mid (date : string) : Z := month_of (lower date).

(** Year and month a position ends: now for an absent end date and for
    one that says "present" or "current". *)
Definition position_end (E : env) (end_date : string) : option (Z * Z) :=
  if String.eqb end_date ""
     || str_in "present" (lower end_date)
     || str_in "current" (lower end_date)
  then Some (now_year E, now_month E)
  else
    match year_in end_date with
    | Some y => Some (y, month_or_mid end_date)
    | None => None
    end.

Definition entry_contribution (E : env)
           (duration start_date end_date : string) : float :=
  if negb (String.eqb duration "") then
    years_figure (lower duration) + months_figure (lower duration) / 12.0
  else
    match year_in start_date, position_end E end_date with
    | Some start_year, Some (end_year, end_month) =>
        let span :=
          float_of_Z (end_year - start_year)
          + float_of_Z (end_month - month_or_mid start_date) / 12.0 in
        if 0 <? span then span else 0
    | _, _ => 0
    end.

Definition contribution (E : env) (exp : pyval) : float :=
  match text_field "duration" exp,
        text_field "start_date" exp,
        text_field "end_date" exp with
  | Some d, Some s, Some e => entry_contribution E d s e
  | _, _, _ => 0
  end.

(** ** The required years in the specification's terms *)

(** The figure a posting states: the midpoint of the first range
    "N-M" or "N to M", else the first number; [None] when the text has
    neither or is no text. *)
Definition stated_years (req_exp_str : pyval) : option float :=
  match req_exp_str with
  | PStr s =>
      match re_search re_range s with
      | Some g =>
          Some ((float_of_decimal (group1 g) + float_of_decimal (group2 g)) / 2.0)
      | None =>
          match re_search re_number s with
          | Some g => Some (float_of_decimal (group1 g))
          | None => None
          end
      end
  | _ => None
  end.

(** The stated figure, else 2.0. *)
Definition stated_or_default (req_exp_str : pyval) : float :=
  match stated_years req_exp_str with
  | Some y => y
  | None => 2.0
  end.

(** The stated figure when it is above 0, else 2.0. *)
Definition positive_or_default (req_exp_str : pyval) : float :=
  match stated_years req_exp_str with
  | Some y => if y <=? 0 then 2.0 else y
  | None => 2.0
  end.

(** ** The ranker in the specification's terms *)

(** The float a stored score stands for in arithmetic with a float. *)
Definition as_float (v : pyval) : option float :=
  match v with
  | PFloat f => Some f
  | PInt z =>
      match py_float_of_int z with
      | Ok f => Some f
      | Raise _ => None
      end
  | PBool b => Some (if b then 1.0 else 0.0)
  | _ => None
  end.

(** The score a candidate record holds under [k], [dflt] when the key is
    absent; [None] when there is no record or no number. *)
Definition score_field (c : pyval) (k : string) (dflt : float) : option float :=
  match c with
  | PDict d =>
      match lookup k d with
      | Some v => as_float v
      | None => Some dflt
      end
  | _ => None
  end.

(** A candidate of the data model: a record whose scores are numbers. *)
Definition numeric_candidate (c : pyval) : bool :=
  match score_field c "ats_score" 50.0,
        score_field c "skill_match" 50.0,
        score_field c "experience_match" 50.0,
        score_field c "education_match" 50.0,
        score_field c "authenticity_score" 0.5 with
  | Some _, Some _, Some _, Some _, Some _ => true
  | _, _, _, _, _ => false
  end.

Definition composite_formula
           (ats_score skill_match experience_match education_match
              authenticity_score : float) : float :=
  let authenticity_factor := 0.8 + 0.4 * authenticity_score in
  py_min
    (py_round2
       (((0.5 * ats_score) + (0.3 * skill_match)
         + (0.1 * experience_match) + (0.1 * education_match))
        * authenticity_factor))
    100.0.

(** The record [c] with [v] stored under ["composite_score"]. *)
Definition with_composite (c : pyval) (v : float) : pyval :=
  match c with
  | PDict d => PDict (dict_set "composite_score" (PFloat v) d)
  | _ => c
  end.

(** [c'] is [c] with the composite score the formula gives for the
    scores of [c]. *)
Definition scored_by_formula (c c' : pyval) : Prop :=
  exists a s e d u,
    score_field c "ats_score" 50.0 = Some a
    /\ score_field c "skill_match" 50.0 = Some s
    /\ score_field c "experience_match" 50.0 = Some e
    /\ score_field c "education_match" 50.0 = Some d
    /\ score_field c "authenticity_score" 0.5 = Some u
    /\ c' = with_composite c (composite_formula a s e d u).

(** [c'] is [c] after the scoring loop. *)
Definition scored_version (c c' : pyval) : Prop :=
  exists v, composite_of c = Ok v /\ c' = with_composite c v.



(* ================================================================== *)
(** * Sample inputs                                                    *)
(* ================================================================== *)

(** A clock at June 2024 and a collaborator that answers with an empty
    record. *)
Definition sample_env : env :=
  {| now_year := 2024;
     now_month := 6;
     comprehensive_analysis := fun _ _ => Ok (PDict []);
     ranking_insights := fun _ _ => Ok (PStr "") |}.

Definition sample_experience : list pyval :=
  [PDict [("title", PStr "Data Engineer"); ("duration", PStr "2 years 6 months")];
   PDict [("title", PStr "Analyst");
          ("start_date", PStr "Mar 2015"); ("end_date", PStr "Dec 2018")];
   PDict [("title", PStr "Intern");
          ("start_date", PStr "2016"); ("end_date", PStr "2014")];
   PDict [("title", PStr "Volunteer"); ("duration", PNone);
          ("start_date", PStr "last summer")]].

(** An entry-level posting and a candidate with one year behind them. *)
Definition entry_level_job : pyval :=
  PDict [("job_title", PStr "Junior Analyst");
         ("years_of_experience", PStr "0 years")].

Definition one_year_resume : pyval :=
  PDict [("experience", PList [PDict [("duration", PStr "1 year")]])].

(** A posting that asks for a doctorate and a candidate whose only degree
    text is "undergraduate". *)
Definition phd_job : pyval :=
  PDict [("education_requirements", PStr "PhD required")].

Definition undergraduate_resume : pyval :=
  PDict [("education", PList [PDict [("degree", PStr "undergraduate")]])].

(** A pool of four with a tie between the first and the third. *)
Definition sample_pool : list pyval :=
  [PDict [("name", PStr "Ada"); ("ats_score", PFloat 10)];
   PDict [("name", PStr "Bob"); ("ats_score", PInt 90);
          ("authenticity_score", PFloat 0.9)];
   PDict [("name", PStr "Cy"); ("ats_score", PFloat 10)];
   PDict [("name", PStr "Di")]].

(** The end-to-end scenario of the specification. *)
Definition scenario_job : pyval :=
  PDict [("job_title", PStr "Data Engineer");
         ("required_skills", PList [PStr "Python"; PStr "SQL"]);
         ("preferred_skills", PList [PStr "Docker"]);
         ("years_of_experience", PStr "3-5 years");
         ("education_requirements", PStr "Bachelor's degree")].

Definition scenario_resume : pyval :=
  PDict [("name", PStr "Ada");
         ("skills", PList [PStr "python"; PStr "PostgreSQL"]);
         ("experience",
          PList [PDict [("title", PStr "Data Engineer");
                        ("start_date", PStr "Jan 2019");
                        ("end_date", PStr "present")]]);
         ("education", PList [PDict [("degree", PStr "Bachelor of Science")]])].

(** The same candidate in the other application's format, with the
    positions under ["workExperience"]. *)
Definition alternative_resume : pyval :=
  PDict [("name", PStr "Ada");
         ("skills", PList [PStr "python"; PStr "PostgreSQL"]);
         ("workExperience",
          PList [PDict [("title", PStr "Data Engineer");
                        ("company", PStr "Docker Inc");
                        ("start_date", PStr "Jan 2019");
                        ("end_date", PStr "present")]]);
         ("education", PList [PDict [("degree", PStr "Bachelor of Science")]])].

(** A resume whose skills are null. *)
Definition broken_resume : pyval := PDict [("skills", PNone)].

(** An environment with a given clock and a given reply of the analysis
    collaborator. *)
Definition env_at (year month : Z) (reply : res pyval) : env :=
  {| now_year := year;
     now_month := month;
     comprehensive_analysis := fun _ _ => reply;
     ranking_insights := fun _ _ => Ok (PStr "") |}.

(* ================================================================== *)
(** * candidate_ranker.py: the comparison helpers                      *)
(* ================================================================== *)

(** ** _get_experience_level *)

(** The body of the loop.  The counter starts as the [int] 0; a parsed
    figure is a [float], the default for an unparsed mention of "year"
    is the [int] 1.  Nothing in the guarded lines can raise on a
    string, so the handler is never entered. *)
Definition level_step (total_years : pynum) (exp : pyval) : res pynum :=
  let* d := py_get exp "duration" (PStr "") in
  let* duration_lower := py_lower d in
  if str_in "year" duration_lower then
    match re_search re_years duration_lower with
    | Some g => Ok (num_add_float total_years (float_of_decimal (group1 g)))
    | None => Ok (num_add_int total_years 1)
    end
  else Ok total_years.

Definition _get_experience_level (candidate : pyval) : res pynum :=
  let* experience := py_get candidate "experience" (PList []) in
  let* entries := py_iter experience in
  foldM level_step entries (NInt 0).

(** ** _identify_key_differences: the skills all top candidates have *)

(** The loop that computes [common_matching], on the sets
    [set(candidate.get("matching_skills", []))] of the top candidates in
    order: the running set is intersected with the next one while it is
    not empty, and replaced by the next one when it is. *)
Definition common_matching_step (common_matching skills : list string) : list string :=
  match common_matching with
  | [] => skills
  | _ => set_inter common_matching skills
  end.

Definition common_matching_loop (skill_sets : list (list string)) : list string :=
  fold_left common_matching_step skill_sets [].

(** ** rank_candidates: one round of the scoring loop *)

(** The step of the scoring loop on one candidate. *)
Definition rescored (c : pyval) : res pyval :=
  let* v := composite_of c in set_composite c v.

(* ================================================================== *)
(** * json_handler.py: class JsonHandler                               *)
(* ================================================================== *)

(** ** clean_none_values *)

(** The comprehension over the items of a list: nulls are dropped,
    records are cleaned by [clean], everything else is kept. *)
Definition clean_items (clean : pyval -> pyval) : list pyval -> list pyval :=
  fix items (l : list pyval) : list pyval :=
    match l with
    | [] => []
    | item :: l' =>
        match item with
        | PNone => items l'
        | PDict _ => clean item :: items l'
        | _ => item :: items l'
        end
    end.

(** One round of the loop over [data.items()]. *)
Definition clean_entry (clean : pyval -> pyval)
           (result : dict) (key : string) (value : pyval) : dict :=
  match value with
  | PNone => result
  | PDict _ => dict_set key (clean value) result
  | PList l => dict_set key (PList (clean_items clean l)) result
  | _ => dict_set key value result
  end.

Fixpoint clean_none_values (data : pyval) : pyval :=
  match data with
  | PDict d =>
      PDict ((fix loop (d : list (string * pyval)) (result : dict) : dict :=
                match d with
                | [] => result
                | (key, value) :: d' =>
                    loop d'
                      match value with
                      | PNone => result
                      | PDict _ => dict_set key (clean_none_values value) result
                      | PList l =>
                          dict_set key
                            (PList
                               ((fix items (l : list pyval) : list pyval :=
                                   match l with
                                   | [] => []
                                   | item :: l' =>
                                       match item with
                                       | PNone => items l'
                                       | PDict _ => clean_none_values item :: items l'
                                       | _ => item :: items l'
                                       end
                                   end) l))
                            result
                      | _ => dict_set key value result
                      end
                end) d [])
  | _ => data
  end.

(** The loop of [clean_none_values] from a given result so far. *)
Definition clean_loop (d : list (string * pyval)) (result : dict) : dict :=
  fold_left (fun r kv => clean_entry clean_none_values r (fst kv) (snd kv)) d result.

(** What cleaning does to a value stored in a dictionary. *)
Definition cleaned_value (v : pyval) : pyval :=
  match v with
  | PDict _ => clean_none_values v
  | PList l => PList (clean_items clean_none_values l)
  | _ => v
  end.

(* ================================================================== *)
(** * More of the specification's vocabulary                           *)
(* ================================================================== *)


(** A record whose duration is text or absent. *)
Definition text_duration (exp : pyval) : option string :=
  match exp with
  | PDict d =>
      match lookup "duration" d with
      | None => Some ""
      | Some (PStr s) => Some s
      | Some _ => None
      end
  | _ => None
  end.

(** A record that stores text, or nothing, under [k]. *)
Definition text_or_absent (k : string) (v : pyval) : bool :=
  match v with
  | PDict d =>
      match lookup k d with
      | None | Some (PStr _) => true
      | Some _ => false
      end
  | _ => false
  end.

(** Nothing in the dictionary is stored twice. *)
Definition distinct_keys (d : dict) : Prop := NoDup (map fst d).

(** Induction on Python values through the lists and dictionaries they
    hold. *)
Section PyvalInduction.
Variable P : pyval -> Prop.
Hypothesis HNone : P PNone.
Hypothesis HBool : forall b, P (PBool b).
Hypothesis HInt : forall z, P (PInt z).
Hypothesis HFloat : forall f, P (PFloat f).
Hypothesis HStr : forall s, P (PStr s).
Hypothesis HList : forall l, Forall P l -> P (PList l).
Hypothesis HDict : forall d, Forall (fun kv => P (snd kv)) d -> P (PDict d).

Fixpoint pyval_nested_ind (v : pyval) : P v :=
  match v with
  | PNone => HNone
  | PBool b => HBool b
  | PInt z => HInt z
  | PFloat f => HFloat f
  | PStr s => HStr s
  | PList l =>
      HList l
        ((fix go (l : list pyval) : Forall P l :=
            match l with
            | [] => Forall_nil P
            | x :: l' => Forall_cons x (pyval_nested_ind x) (go l')
            end) l)
  | PDict d =>
      HDict d
        ((fix go (d : list (string * pyval)) : Forall (fun kv => P (snd kv)) d :=
            match d with
            | [] => Forall_nil _
            | kv :: d' =>
                Forall_cons kv (pyval_nested_ind (snd kv)) (go d')
            end) d)
  end.
End PyvalInduction.

(* ================================================================== *)
(** * utils/json_handler.py: merge_json                                *)
(* ================================================================== *)

(** One round of the loop over [updates.items()]; [merge] is the
    recursive call. *)
Definition merge_entry (merge : pyval -> pyval -> pyval)
           (result : dict) (key : string) (value : pyval) : dict :=
  match value, lookup key result with
  | PDict _, Some (PDict r) => dict_set key (merge (PDict r) value) result
  | _, _ => dict_set key value result
  end.

Fixpoint merge_json (base updates : pyval) {struct updates} : pyval :=
  match updates with
  | PDict u =>
      match base with
      | PDict b =>
          PDict ((fix loop (u : list (string * pyval)) (result : dict) : dict :=
                    match u with
                    | [] => result
                    | (key, value) :: u' =>
                        loop u'
                          match value, lookup key result with
                          | PDict _, Some (PDict r) =>
                              dict_set key (merge_json (PDict r) value) result
                          | _, _ => dict_set key value result
                          end
                    end) u b)
      | _ => updates
      end
  | PNone => base
  | _ => updates
  end.

(** The loop of [merge_json] from a given result so far. *)
Definition merge_loop (u : list (string * pyval)) (result : dict) : dict :=
  fold_left (fun r kv => merge_entry merge_json r (fst kv) (snd kv)) u result.

(** What a merge stores under a key of [updates]. *)
Definition merged_value (old : option pyval) (value : pyval) : pyval :=
  match value, old with
  | PDict _, Some (PDict r) => merge_json (PDict r) value
  | _, _ => value
  end.

(** A value whose records, at every depth, have no key twice, as every
    Python dictionary has. *)
Fixpoint json_value (v : pyval) : Prop :=
  match v with
  | PDict d =>
      NoDup (map fst d)
      /\ (fix all (d : list (string * pyval)) : Prop :=
            match d with
            | [] => True
            | (_, x) :: d' => json_value x /\ all d'
            end) d
  | PList l =>
      (fix all (l : list pyval) : Prop :=
         match l with
         | [] => True
         | x :: l' => json_value x /\ all l'
         end) l
  | _ => True
  end.

(* ================================================================== *)
(** * utils/json_handler.py: safe_get                                  *)
(* ================================================================== *)

(** [s.split(sep)] for a separator of one character. *)
Fixpoint split_on (sep : ascii) (s : string) : list string :=
  match s with
  | EmptyString => [EmptyString]
  | String c s' =>
      if Ascii.eqb c sep then EmptyString :: split_on sep s'
      else match split_on sep s' with
           | [] => [String c EmptyString]
           | piece :: pieces => String c piece :: pieces
           end
  end.

Definition is_dict (v : pyval) : bool :=
  match v with
  | PDict _ => true
  | _ => false
  end.

(** The loop over the keys of the path, from the value reached so far;
    [None] is the early [return default]. *)
Fixpoint walk_keys (keys : list string) (current : pyval) : option pyval :=
  match keys with
  | [] => Some current
  | key :: keys' =>
      match current with
      | PDict d =>
          match lookup key d with
          | Some x => walk_keys keys' x
          | None => None
          end
      | _ => None
      end
  end.

Definition safe_get (data : pyval) (key_path : string) (default : pyval) : pyval :=
  if negb (truthy data) || negb (is_dict data) then default
  else
    let keys := split_on "." key_path in
    match walk_keys keys data with
    | None => default
    | Some PNone => default
    | Some current => current
    end.

(** Whether the character occurs in the text. *)
Fixpoint has_char (c : ascii) (s : string) : bool :=
  match s with
  | EmptyString => false
  | String x s' => Ascii.eqb x c || has_char c s'
  end.

(* ================================================================== *)
(** * Facts on binary64 arithmetic                                     *)
(* ================================================================== *)

Module FloatFacts.

Lemma mul_comm (x y : float) : x * y = y * x.
Proof.
  apply Prim2SF_inj. rewrite !mul_spec.
  destruct (Prim2SF x) as [sx|sx| |sx mx ex], (Prim2SF y) as [sy|sy| |sy my ey];
    cbn; rewrite ?(xorb_comm sy sx); try reflexivity.
  now rewrite (Pos.mul_comm my mx), (Z.add_comm ey ex).
Qed.

Lemma Prim2SF_zero : Prim2SF 0 = S754_zero false.
Proof. reflexivity. Qed.

Lemma add_zero_r (x : float) : nonneg x -> x + 0 = x.
Proof.
  unfold nonneg. intros H. apply Prim2SF_inj.
  rewrite add_spec, Prim2SF_zero.
  destruct (Prim2SF x) as [s|s| |s m e]; cbn in *; subst; reflexivity.
Qed.

Lemma round_aux_nonneg m e l : sf_nonneg (binary_round_aux prec emax false m e l).
Proof.
  unfold binary_round_aux.
  destruct (shr_fexp prec emax m e l) as [mrs' e'].
  destruct (shr_fexp prec emax _ e' loc_Exact) as [mrs'' e''].
  destruct (shr_m mrs''); cbn; auto.
  destruct (_ <=? _)%Z; cbn; auto.
Qed.

Lemma round_nonneg m e : sf_nonneg (binary_round prec emax false m e).
Proof.
  unfold binary_round. destruct (shl_align _ _ _). apply round_aux_nonneg.
Qed.

Lemma normalize_nonneg z e : (0 <= z)%Z -> sf_nonneg (binary_normalize prec emax z e false).
Proof.
  destruct z; cbn; intros; auto using round_nonneg. lia.
Qed.

Lemma SFadd_nonneg x y : sf_nonneg x -> sf_nonneg y -> sf_nonneg (SFadd prec emax x y).
Proof.
  destruct x as [sx|sx| |sx mx ex], y as [sy|sy| |sy my ey]; cbn;
    intros; subst; cbn; auto.
  apply round_nonneg.
Qed.

Lemma SFdiv_nonneg x y : sf_nonneg x -> sf_nonneg y -> sf_nonneg (SFdiv prec emax x y).
Proof.
  destruct x as [sx|sx| |sx mx ex], y as [sy|sy| |sy my ey]; cbn;
    intros; subst; cbn; auto.
  destruct (SFdiv_core_binary _ _ _ _ _ _) as [[mz ez] lz].
  apply round_aux_nonneg.
Qed.

Lemma add_nonneg x y : nonneg x -> nonneg y -> nonneg (x + y).
Proof. unfold nonneg. rewrite add_spec. apply SFadd_nonneg. Qed.

Lemma div_nonneg x y : nonneg x -> nonneg y -> nonneg (x / y).
Proof. unfold nonneg. rewrite div_spec. apply SFdiv_nonneg. Qed.

Lemma SF2Prim_nonneg sf : sf_nonneg sf -> nonneg (SF2Prim sf).
Proof.
  unfold nonneg.
  destruct sf as [s|s| |s m e]; intros H; cbn in H; subst;
    try reflexivity.
  unfold SF2Prim.
  rewrite Z_ldexp_spec, of_uint63_spec.
  pose proof (Uint63.to_Z_bounded (Uint63.of_Z (Z.pos m))) as Hb.
  destruct (Uint63.to_Z _) as [|p|p]; try lia.
  - reflexivity.
  - unfold binary_normalize.
    pose proof (round_nonneg p 0) as Hr.
    destruct (binary_round prec emax false p 0); cbn in *; auto.
    subst. apply round_nonneg.
Qed.

Lemma SF_exact_nonneg z : (0 <= z)%Z -> sf_nonneg (SF_exact z).
Proof. destruct z; cbn; auto; lia. Qed.

Lemma quot_float_nonneg a b : (0 <= a)%Z -> (0 <= b)%Z -> nonneg (quot_float a b).
Proof.
  intros. apply SF2Prim_nonneg, SFdiv_nonneg; now apply SF_exact_nonneg.
Qed.

Lemma pos_nonneg x : (0 <? x) = true -> nonneg x.
Proof.
  unfold nonneg. rewrite ltb_spec, Prim2SF_zero.
  destruct (Prim2SF x) as [s|s| |s m e]; cbn; auto; destruct s; auto; discriminate.
Qed.

Lemma zero_nonneg : nonneg 0.
Proof. reflexivity. Qed.

Lemma float_of_Z_nonneg z : (0 <= z)%Z -> nonneg (float_of_Z z).
Proof. intros. now apply SF2Prim_nonneg, normalize_nonneg. Qed.

(** The quotient of a positive integer by itself is exactly 1. *)
Lemma quot_float_diag (p : positive) : quot_float (Zpos p) (Zpos p) = 1.
Proof.
  unfold quot_float, SF_exact, SFdiv, SFdiv_core_binary.
  replace (Zdigits2 (Zpos p) + 0 - (Zdigits2 (Zpos p) + 0))%Z with 0%Z by lia.
  change (Z.min (fexp prec emax 0) (0 - 0)) with (-53)%Z.
  change (0 - 0 - -53)%Z with 53%Z.
  cbv iota.
  rewrite Z.shiftl_mul_pow2 by lia.
  rewrite (Z.mul_comm (Zpos p)).
  pose proof (Z.div_mul (2 ^ 53) (Zpos p) ltac:(lia)) as Hq.
  pose proof (Z.mod_mul (2 ^ 53) (Zpos p) ltac:(lia)) as Hr.
  unfold Z.div, Z.modulo in Hq, Hr.
  destruct (Z.div_eucl (2 ^ 53 * Zpos p) (Zpos p)) as [q r]. subst q r.
  replace (new_location (Zpos p) 0) with loc_Exact.
  - reflexivity.
  - unfold new_location, new_location_even, new_location_odd.
    now destruct (Z.even (Zpos p)).
Qed.

(** ** The order of binary64 values that are not NaN *)

Lemma not_nan_sf (x : float) : is_nan x = false -> Prim2SF x <> S754_nan.
Proof.
  unfold is_nan. rewrite eqb_spec. intros H E. rewrite E in H. discriminate.
Qed.

Ltac order_cases :=
  repeat match goal with
         | s : bool |- _ => destruct s
         end;
  cbn in *; try congruence;
  repeat match goal with
         | H : context [(?a ?= ?b)%Z] |- _ =>
             destruct (Z.compare_spec a b); subst
         | |- context [(?a ?= ?b)%Z] =>
             destruct (Z.compare_spec a b); subst
         | H : context [Pos.compare_cont Eq ?a ?b] |- _ =>
             change (Pos.compare_cont Eq a b) with (Pos.compare a b) in H;
             destruct (Pos.compare_spec a b); subst
         | |- context [Pos.compare_cont Eq ?a ?b] =>
             change (Pos.compare_cont Eq a b) with (Pos.compare a b);
             destruct (Pos.compare_spec a b); subst
         end;
  cbn in *; try congruence; try lia.

Lemma ltb_asym (x y : float) : (x <? y) = true -> (y <? x) = false.
Proof.
  rewrite !ltb_spec. unfold SFltb.
  destruct (Prim2SF x) as [sx|sx| |sx mx ex], (Prim2SF y) as [sy|sy| |sy my ey];
    order_cases.
Qed.

Lemma geb_trans (x y z : float) :
  is_nan y = false -> (x <? y) = false -> (y <? z) = false -> (x <? z) = false.
Proof.
  intros Hy%not_nan_sf. rewrite !ltb_spec. unfold SFltb.
  destruct (Prim2SF x) as [sx|sx| |sx mx ex], (Prim2SF y) as [sy|sy| |sy my ey],
           (Prim2SF z) as [sz|sz| |sz mz ez]; try congruence; clear Hy;
    order_cases.
Qed.


End FloatFacts.

(* ================================================================== *)
(** * Strings and sets                                                 *)
(* ================================================================== *)

Lemma prefix_spec (a b : string) :
  String.prefix a b = true <-> exists post, b = a ++ post.
Proof.
  revert a. induction b as [|c' b IH]; intros [|c a]; cbn.
  - split; [intros _; now exists "" | reflexivity].
  - split; [discriminate | intros [post H]; discriminate].
  - split; [intros _; now exists (String c' b) | reflexivity].
  - destruct (Ascii.ascii_dec c c') as [->|Hne].
    + rewrite IH. split; intros [post H]; exists post; congruence.
    + split; [discriminate | intros [post H]; congruence].
Qed.

Lemma str_in_spec (a b : string) : str_in a b = true <-> occurs_in a b.
Proof.
  unfold occurs_in. induction b as [|c b IH]; cbn [str_in].
  - destruct (String.prefix a "") eqn:Hp.
    + split; [intros _ | reflexivity].
      apply prefix_spec in Hp as [post Hp]. now exists "", post.
    + split; [discriminate|]. intros (pre & post & H).
      destruct pre; cbn in H; [|discriminate].
      assert (String.prefix a "" = true) by (apply prefix_spec; eauto).
      congruence.
  - destruct (String.prefix a (String c b)) eqn:Hp.
    + split; [intros _ | reflexivity].
      apply prefix_spec in Hp as [post Hp]. now exists "", post.
    + rewrite IH. split.
      * intros (pre & post & ->). now exists (String c pre), post.
      * intros (pre & post & H). destruct pre as [|c' pre]; cbn in H.
        -- assert (String.prefix a (String c b) = true)
             by (apply prefix_spec; eauto).
           congruence.
        -- injection H as -> ->. now exists pre, post.
Qed.

Lemma mem_In (x : string) (l : list string) : mem x l = true <-> In x l.
Proof.
  unfold mem. rewrite existsb_exists. split.
  - intros (y & Hy & E). apply String.eqb_eq in E. now subst.
  - intros H. exists x. split; [assumption | apply String.eqb_refl].
Qed.

Lemma partial_match_spec (req : string) (cands : list string) :
  partial_match req cands = true <-> partially_matched req cands.
Proof.
  unfold partial_match, partially_matched. rewrite existsb_exists.
  split; intros (c & Hc & H); exists c; split; try assumption.
  - apply orb_true_iff in H. now rewrite <- !str_in_spec.
  - apply orb_true_iff. now rewrite !str_in_spec.
Qed.

(* ================================================================== *)
(** * SkillMatcher                                                     *)
(* ================================================================== *)





(* ================================================================== *)
(** * DurationParser                                                   *)
(* ================================================================== *)

Lemma read_digits_nonneg (s : string) (acc : Z) (n : nat) :
  (0 <= acc)%Z -> (0 <= fst (fst (read_digits s acc n)))%Z.
Proof.
  revert acc n. induction s as [|c s IH]; intros acc n H; cbn [read_digits];
    [assumption|].
  destruct (is_digit c) eqn:Hd; [|assumption].
  apply IH. unfold is_digit in Hd.
  apply andb_true_iff in Hd as [H1 _]. apply N.leb_le in H1. lia.
Qed.

Lemma float_of_decimal_nonneg (s : string) : nonneg (float_of_decimal s).
Proof.
  unfold float_of_decimal.
  pose proof (read_digits_nonneg s 0 0 ltac:(lia)) as H0.
  destruct (read_digits s 0 0) as [[ip n0] rest]. cbn in H0.
  assert (forall num k, (0 <= num)%Z ->
            nonneg (quot_float num (10 ^ Z.of_nat k))) as Hq.
  { intros. apply FloatFacts.quot_float_nonneg; [assumption|].
    apply Z.pow_nonneg. lia. }
  destruct rest as [|c rest]; [now apply Hq|].
  destruct (Ascii.ascii_dec c "."%char) as [->|Hne].
  - pose proof (read_digits_nonneg rest ip 0 H0) as H1.
    destruct (read_digits rest ip 0) as [[v k] r]. now apply Hq.
  - destruct c as [[] [] [] [] [] [] [] []]; try now apply Hq.
    congruence.
Qed.

Lemma years_figure_nonneg (t : string) : nonneg (years_figure t).
Proof.
  unfold years_figure. destruct (re_search re_years t).
  - apply float_of_decimal_nonneg.
  - apply FloatFacts.zero_nonneg.
Qed.

Lemma months_figure_nonneg (t : string) : nonneg (months_figure t / 12.0).
Proof.
  apply FloatFacts.div_nonneg; [|reflexivity].
  unfold months_figure. destruct (re_search re_months t).
  - apply float_of_decimal_nonneg.
  - apply FloatFacts.zero_nonneg.
Qed.

Lemma contribution_nonneg (E : env) (exp : pyval) : nonneg (contribution E exp).
Proof.
  unfold contribution.
  destruct (text_field "duration" exp) as [d|]; [|apply FloatFacts.zero_nonneg].
  destruct (text_field "start_date" exp) as [s|]; [|apply FloatFacts.zero_nonneg].
  destruct (text_field "end_date" exp) as [e|]; [|apply FloatFacts.zero_nonneg].
  unfold entry_contribution.
  destruct (negb (d =? ""))%string.
  - apply FloatFacts.add_nonneg;
      [apply years_figure_nonneg | apply months_figure_nonneg].
  - destruct (year_in s); [|apply FloatFacts.zero_nonneg].
    destruct (position_end E e) as [[ey em]|]; [|apply FloatFacts.zero_nonneg].
    cbv zeta.
    destruct (0 <? _) eqn:Hp;
      [now apply FloatFacts.pos_nonneg | apply FloatFacts.zero_nonneg].
Qed.

Lemma no_year_in_empty : re_search re_year4 "" = None.
Proof. reflexivity. Qed.

Lemma truthy_str (s : string) : truthy (PStr s) = negb (s =? "")%string.
Proof. reflexivity. Qed.

(** The end of a position, on free text. *)
Lemma end_of_position_text (E : env) (v : pyval) (e : string) (d : dict) :
  lookup "end_date" d = Some v ->
  text_field "end_date" (PDict d) = Some e ->
  end_of_position E v = Ok (position_end E e).
Proof.
  unfold text_field. intros ->.
  destruct v; try discriminate; intros [= <-].
  - reflexivity.
  - unfold end_of_position, position_end, year_in, month_or_mid.
    rewrite truthy_str.
    destruct (s =? "")%string; cbn [negb orb py_lower bind py_str]; [reflexivity|].
    destruct (str_in "present" (lower s) || str_in "current" (lower s));
      [reflexivity|].
    now destruct (re_search re_year4 s).
Qed.

Lemma experience_step_spec (E : env) (total : float) (exp : pyval) :
  wf_entry exp = true -> nonneg total ->
  experience_step E total exp = Ok (total + contribution E exp).
Proof.
  unfold wf_entry, contribution. intros Hwf Htot.
  destruct (text_field "duration" exp) as [du|] eqn:Hdu; [|discriminate].
  destruct (text_field "start_date" exp) as [sd|] eqn:Hsd; [|discriminate].
  destruct (text_field "end_date" exp) as [ed|] eqn:Hed; [|discriminate].
  clear Hwf. destruct exp as [| | | | | |d]; try discriminate.
  pose proof (FloatFacts.add_zero_r total Htot) as Hz.
  (* the dates branch, shared by the ways a duration can be missing *)
  assert (Hdates :
    (let* start_date := py_get (PDict d) "start_date" (PStr "") in
     let* end_date := py_get (PDict d) "end_date" (PStr "") in
     if negb (truthy start_date) then Ok total
     else
       let* sd := py_str start_date in
       match re_search re_year4 sd with
       | None => Ok total
       | Some g =>
           let start_year := int_of_digits (group1 g) in
           let* ends := end_of_position E end_date in
           match ends with
           | None => Ok total
           | Some (end_year, end_month) =>
               let start_month := month_of (lower sd) in
               let experience_years :=
                 float_of_Z (end_year - start_year)
                 + float_of_Z (end_month - start_month) / 12.0 in
               if py_gt experience_years 0
               then Ok (total + experience_years)
               else Ok total
           end
       end)
    = Ok (total + entry_contribution E "" sd ed)).
  { unfold entry_contribution, year_in, month_or_mid.
    cbn [String.eqb negb py_get bind].
    assert (Hend : end_of_position E
              match lookup "end_date" d with Some x => x | None => PStr "" end
            = Ok (position_end E ed)).
    { destruct (lookup "end_date" d) as [v|] eqn:Hl.
      - now apply (end_of_position_text E v ed d).
      - unfold text_field in Hed. rewrite Hl in Hed. injection Hed as <-.
        reflexivity. }
    unfold text_field in Hsd.
    destruct (lookup "start_date" d) as [[| | | |s| |]|]; try discriminate;
      injection Hsd as <-; cbn [truthy negb String.eqb];
      try (now rewrite no_year_in_empty, Hz).
    destruct (s =? "")%string eqn:Hs.
    { apply String.eqb_eq in Hs. subst s. cbn [negb].
      now rewrite no_year_in_empty, Hz. }
    cbn [negb py_str bind].
    destruct (re_search re_year4 s) as [g|]; [|now rewrite Hz].
    rewrite Hend. cbn [bind].
    destruct (position_end E ed) as [[ey em]|]; [|now rewrite Hz].
    cbv zeta. unfold py_gt.
    destruct (0 <? _); [reflexivity | now rewrite Hz]. }
  unfold experience_step. cbn [py_contains bind].
  unfold text_field in Hdu.
  destruct (lookup "duration" d) as [v|] eqn:Hl.
  - cbn [py_getitem]. rewrite Hl. cbn [bind].
    destruct v; try discriminate; injection Hdu as <-.
    + cbn [truthy]. exact Hdates.
    + rewrite truthy_str.
      destruct (s =? "")%string eqn:Hs.
      * apply String.eqb_eq in Hs. subst s. cbn [negb]. exact Hdates.
      * cbn [negb py_lower bind]. unfold entry_contribution.
        rewrite Hs. cbn [negb]. unfold years_figure, months_figure.
        destruct (re_search re_years (lower s));
          destruct (re_search re_months (lower s)); reflexivity.
  - injection Hdu as <-. cbn [truthy]. exact Hdates.
Qed.

Lemma total_years_from (E : env) (entries : list pyval) (total : float) :
  forallb wf_entry entries = true -> nonneg total ->
  foldM (experience_step E) entries total
  = Ok (fold_left (fun t exp => t + contribution E exp) entries total).
Proof.
  revert total. induction entries as [|exp entries IH]; intros total Hwf Ht.
  - reflexivity.
  - cbn [forallb] in Hwf. apply andb_true_iff in Hwf as [Hw Hws].
    cbn [foldM fold_left]. rewrite experience_step_spec by assumption.
    cbn [bind]. apply IH; [assumption|].
    apply FloatFacts.add_nonneg; [assumption | apply contribution_nonneg].
Qed.



(** The examples of the specification, at a clock reading of June 2024. *)
Example total_years_examples :
  _calculate_total_experience_years sample_env
    (PList [PDict [("duration", PStr "2 years 6 months")]]) = Ok 2.5
  /\ _calculate_total_experience_years sample_env
       (PList [PDict [("start_date", PStr "Jan 2020");
                      ("end_date", PStr "Jan 2022")]]) = Ok 2
  /\ _calculate_total_experience_years sample_env
       (PList [PDict [("start_date", PStr "Jan 2020");
                      ("end_date", PStr "present")]])
     = Ok (4 + 5 / 12)
  /\ _calculate_total_experience_years sample_env
       (PList [PDict [("start_date", PStr ""); ("end_date", PStr "2022")]])
     = Ok 0
  /\ _calculate_total_experience_years sample_env (PList sample_experience)
     = Ok 6.25.
Proof. repeat split; reflexivity. Qed.

(* ================================================================== *)
(** * Experience match                                                 *)
(* ================================================================== *)

Lemma required_years_positive_or_default (v : pyval) :
  required_years_of v = positive_or_default v.
Proof.
  unfold required_years_of, positive_or_default, parsed_required_years,
    stated_years.
  destruct v; try reflexivity.
  destruct (re_search re_range s); [reflexivity|].
  destruct (re_search re_number s); reflexivity.
Qed.

(** C4, as stated, fails on a posting that states "0 years": the stated
    figure is 0, against which a candidate with one year would score 100,
    while the source replaces the 0 by 2.0 and returns 50. *)
Lemma experience_match_zero_years :
  _calculate_experience_match sample_env entry_level_job one_year_resume = Ok 50
  /\ stated_years (PStr "0 years") = Some 0
  /\ _calculate_total_experience_years sample_env
       (PList [PDict [("duration", PStr "1 year")]]) = Ok 1
  /\ (let required := stated_or_default (PStr "0 years") in
      let years := 1 in
      if required <=? years then 100
      else if years <=? 0 then 0
      else years / required * 100) = 100.
Proof. repeat split; reflexivity. Qed.

(** C4, amended.  The required years are the midpoint of the first range
    "N-M" or "N to M" in [years_of_experience], else the first number
    there, else 2.0, and 2.0 also when that figure is not above 0; the
    score is 100 when the candidate's total years reach the required
    years, 0 when the total is not above 0, and the quotient of the two
    times 100 otherwise. *)
Theorem experience_match_formula (E : env) (job_requirements resume_data : pyval) :
  _calculate_experience_match E job_requirements resume_data
  = let* text := py_get job_requirements "years_of_experience"
                   (PStr "Not specified") in
    let* experience := py_get resume_data "experience" (PList []) in
    let* years := _calculate_total_experience_years E experience in
    let required := positive_or_default text in
    Ok (if required <=? years then 100
        else if years <=? 0 then 0
        else years / required * 100).
Proof.
  unfold _calculate_experience_match.
  destruct (py_get job_requirements _ _) as [text|e]; [|reflexivity].
  cbn [bind]. rewrite required_years_positive_or_default. reflexivity.
Qed.

(** The scenario of the specification: "3-5 years" asks for 4. *)
Example required_years_examples :
  positive_or_default (PStr "3-5 years") = 4
  /\ positive_or_default (PStr "3 to 5 years") = 4
  /\ positive_or_default (PStr "at least 7 years") = 7
  /\ positive_or_default (PStr "Not specified") = 2
  /\ positive_or_default (PInt 5) = 2.
Proof. repeat split; reflexivity. Qed.

(* ================================================================== *)
(** * Education match                                                  *)
(* ================================================================== *)

(** C5 at its own example.  The table gives "undergraduate" level 3, but
    the text "undergraduate" also contains the key "graduate" of level 4,
    and the highest level found wins: against a doctorate requirement the
    candidate scores 4/5, not 3/5. *)
Theorem education_undergraduate_counts_as_graduate :
  scan_levels "undergraduate" 0 = 4%Z
  /\ scan_levels "phd required" 0 = 5%Z
  /\ _calculate_education_match phd_job undergraduate_resume = Ok 80.
Proof. repeat split; reflexivity. Qed.

(** The examples of the specification. *)
Example education_examples :
  _calculate_education_match
    (PDict [("education_requirements", PStr "")])
    (PDict [("education", PList [PDict [("degree", PStr "Master of Science")]])])
  = Ok 100
  /\ _calculate_education_match phd_job (PDict [("education", PList [])]) = Ok 0
  /\ _calculate_education_match phd_job
       (PDict [("education", PList [PDict [("degree", PStr "Bachelor of Arts")]])])
     = Ok 60.
Proof. repeat split; reflexivity. Qed.

(* ================================================================== *)
(** * CandidateRanker                                                  *)
(* ================================================================== *)

Lemma py_times_as_float (v : pyval) (f w : float) :
  as_float v = Some f -> py_times v w = Ok (w * f).
Proof.
  rewrite (FloatFacts.mul_comm w f).
  destruct v; cbn; try discriminate.
  - now intros [= <-].
  - destruct (py_float_of_int z); [|discriminate]. now intros [= <-].
  - now intros [= <-].
Qed.

Lemma composite_of_numeric (c : pyval) :
  numeric_candidate c = true ->
  exists c', (let* v := composite_of c in set_composite c v) = Ok c'
             /\ scored_by_formula c c' /\ scored_version c c'.
Proof.
  unfold numeric_candidate, scored_by_formula, scored_version. intros H.
  destruct (score_field c "ats_score" 50.0) as [a|] eqn:Ha; [|discriminate].
  destruct (score_field c "skill_match" 50.0) as [s|] eqn:Hs; [|discriminate].
  destruct (score_field c "experience_match" 50.0) as [e|] eqn:He; [|discriminate].
  destruct (score_field c "education_match" 50.0) as [d|] eqn:Hd; [|discriminate].
  destruct (score_field c "authenticity_score" 0.5) as [u|] eqn:Hu; [|discriminate].
  clear H. destruct c as [| | | | | |m]; try discriminate.
  assert (Hget : forall k dflt x,
             score_field (PDict m) k dflt = Some x ->
             forall w, (let* v := py_get (PDict m) k (PFloat dflt) in py_times v w)
                       = Ok (w * x)).
  { intros k dflt x Hx w. cbn in *.
    destruct (lookup k m); cbn.
    - now apply py_times_as_float.
    - injection Hx as <-. now rewrite (FloatFacts.mul_comm w dflt). }
  assert (Hc : composite_of (PDict m) = Ok (composite_formula a s e d u)).
  { pose proof (Hget _ _ _ Ha 0.5) as Ea.
    pose proof (Hget _ _ _ Hs 0.3) as Es.
    pose proof (Hget _ _ _ He 0.1) as Ee.
    pose proof (Hget _ _ _ Hd 0.1) as Ed.
    pose proof (Hget _ _ _ Hu 0.4) as Eu.
    unfold composite_of, composite_formula. cbn [py_get bind] in *.
    rewrite Eu, Ea, Es, Ee, Ed. reflexivity. }
  exists (with_composite (PDict m) (composite_formula a s e d u)).
  rewrite Hc. repeat split.
  - exists a, s, e, d, u. repeat split; assumption.
  - eauto.
Qed.

Lemma score_candidates_numeric (cs : list pyval) :
  forallb numeric_candidate cs = true ->
  exists scored, score_candidates cs = (scored, None)
                 /\ Forall2 scored_by_formula cs scored.
Proof.
  induction cs as [|c cs IH]; cbn [forallb score_candidates]; intros H.
  - exists []. split; [reflexivity | constructor].
  - apply andb_true_iff in H as [Hc Hcs].
    destruct (composite_of_numeric c Hc) as (c' & -> & Hsc & _).
    destruct (IH Hcs) as (scored & -> & HF).
    exists (c' :: scored). split; [reflexivity | now constructor].
Qed.


Section SortFacts.
Context {A : Type} (key : A -> float).

Let notnan (x : A) : Prop := is_nan (key x) = false.
Let above (a b : A) : Prop := (key a <? key b) = false.

Lemma insert_desc_perm (x : A) (l : list A) :
  Permutation (insert_desc key x l) (x :: l).
Proof.
  induction l as [|y l IH]; cbn; [reflexivity|].
  destruct (key x <? key y); [|reflexivity].
  rewrite IH. apply perm_swap.
Qed.

Lemma sorted_desc_perm (l : list A) : Permutation (sorted_desc key l) l.
Proof.
  induction l as [|x l IH]; cbn; [reflexivity|].
  rewrite insert_desc_perm. now constructor.
Qed.

Lemma insert_desc_sorted (x : A) (l : list A) :
  Forall notnan l -> StronglySorted above l ->
  StronglySorted above (insert_desc key x l).
Proof.
  induction l as [|y l IH]; cbn; intros Hn Hs.
  - repeat constructor.
  - inversion Hn as [|? ? Hy Hl]; subst.
    inversion Hs as [|? ? Hsl Hyl]; subst.
    destruct (key x <? key y) eqn:Hxy.
    + constructor; [now apply IH|].
      apply (Permutation_Forall (Permutation_sym (insert_desc_perm x l))).
      constructor; [|assumption].
      now apply FloatFacts.ltb_asym.
    + constructor; [assumption|].
      constructor; [assumption|].
      apply Forall_forall. intros z Hz.
      rewrite Forall_forall in Hyl.
      exact (FloatFacts.geb_trans _ _ _ Hy Hxy (Hyl z Hz)).
Qed.

Lemma sorted_desc_sorted (l : list A) :
  Forall notnan l -> StronglySorted above (sorted_desc key l).
Proof.
  induction l as [|x l IH]; cbn; intros Hn; [constructor|].
  inversion Hn; subst.
  apply insert_desc_sorted; [|now apply IH].
  now apply (Permutation_Forall (Permutation_sym (sorted_desc_perm l))).
Qed.



End SortFacts.

(** What a call of [rank_candidates] returns besides the insights. *)
Lemma rank_candidates_cases (E : env) (job : pyval) (cs : list pyval) :
  let r := rank_candidates E job cs in
  let scored := fst (score_candidates cs) in
  (rank_error r = None /\ snd (score_candidates cs) = None
   /\ ranked_candidates r = sorted_desc sort_key scored)
  \/ (rank_error r <> None /\ ranked_candidates r = scored).
Proof.
  unfold rank_candidates. destruct cs as [|c cs]; [left; now repeat split|].
  destruct (score_candidates (c :: cs)) as [scored [e|]]; cbn [fst snd].
  - right. now split.
  - destruct (ranking_insights E job _).
    + left. now repeat split.
    + right. now split.
Qed.

(** C6. In a pool that is not empty and whose candidates are records
    with numeric scores, every candidate receives the composite score
    min(round((0.5 ats + 0.3 skill + 0.1 experience + 0.1 education)
    * factor, 2), 100), where factor = 0.8 + 0.4 authenticity and
    an absent authenticity score counts as 0.5, which makes the factor
    1.0; absent scores count as 50.0.  The returned list holds exactly
    these scored candidates. *)
Theorem composite_score_formula (E : env) (job : pyval) (candidates : list pyval) :
  candidates <> [] ->
  forallb numeric_candidate candidates = true ->
  0.8 + 0.4 * 0.5 = 1
  /\ exists scored,
      Forall2 scored_by_formula candidates scored
      /\ Permutation scored (ranked_candidates (rank_candidates E job candidates)).
Proof.
  intros _ Hnum. split; [reflexivity|].
  destruct (score_candidates_numeric candidates Hnum) as (scored & Hs & HF).
  exists scored. split; [assumption|].
  destruct (rank_candidates_cases E job candidates) as [(_ & _ & ->)|(_ & ->)];
    rewrite Hs; cbn [fst].
  - symmetry. apply sorted_desc_perm.
  - reflexivity.
Qed.

Lemma composite_score_formula_witness :
  0.8 + 0.4 * 0.5 = 1
  /\ exists scored,
      Forall2 scored_by_formula sample_pool scored
      /\ Permutation scored
           (ranked_candidates (rank_candidates sample_env (PDict []) sample_pool)).
Proof.
  apply (composite_score_formula sample_env (PDict []) sample_pool).
  - discriminate.
  - reflexivity.
Defined.



(** The sample pool, ranked: Bob first, then Di, and Ada before Cy as in
    the input. *)
Example ranking_example :
  map (fun c => (py_get c "name" PNone, sort_key c))
      (ranked_candidates (rank_candidates sample_env (PDict []) sample_pool))
  = [(Ok (PStr "Bob"), 81.2); (Ok (PStr "Di"), 50);
     (Ok (PStr "Ada"), 30); (Ok (PStr "Cy"), 30)].
Proof. reflexivity. Qed.

(* ================================================================== *)
(** * ATSScorer                                                        *)
(* ================================================================== *)

Lemma bind_ok {A B : Type} (m : res A) (k : A -> res B) (b : B) :
  bind m k = Ok b -> exists a, m = Ok a /\ k a = Ok b.
Proof. destruct m as [a|e]; cbn; [eauto | discriminate]. Qed.

Lemma score_resume_completed (E : env) (job resume : pyval) :
  error (score_resume E job resume) = None ->
  score_resume_try E job resume = Ok (score_resume E job resume).
Proof.
  unfold score_resume.
  destruct (score_resume_try E job resume); [reflexivity | discriminate].
Qed.



(** The scenario of the specification, in June 2024. *)
Example scenario_scores :
  let r := score_resume sample_env scenario_job scenario_resume in
  error r = None
  /\ skill_match r = 52.5
  /\ experience_match r = 100
  /\ education_match r = 100
  /\ title_match r = 100
  /\ matching_skills r = ["python"]
  /\ missing_skills r = ["sql"; "docker"].
Proof. repeat split; reflexivity. Qed.

(** C8. Whatever the inputs, an exception raised while scoring does not
    leave [score_resume]: the call returns the neutral result, 50.0 for
    the ATS score and for each of the five sub-scores, and no matching
    and no missing skills. *)
Theorem score_fallback_on_exception (E : env) (job resume : pyval) (e : exn) :
  score_resume_try E job resume = Raise e ->
  let r := score_resume E job resume in
  error r = Some e
  /\ ats_score r = 50 /\ skill_match r = 50 /\ experience_match r = 50
  /\ education_match r = 50 /\ keyword_density r = 50 /\ title_match r = 50
  /\ matching_skills r = [] /\ missing_skills r = [].
Proof.
  intros H. unfold score_resume. rewrite H. repeat split.
Qed.

Lemma score_fallback_on_exception_witness :
  let r := score_resume sample_env scenario_job broken_resume in
  error r = Some TypeError
  /\ ats_score r = 50 /\ skill_match r = 50 /\ experience_match r = 50
  /\ education_match r = 50 /\ keyword_density r = 50 /\ title_match r = 50
  /\ matching_skills r = [] /\ missing_skills r = [].
Proof.
  apply (score_fallback_on_exception sample_env scenario_job broken_resume TypeError).
  reflexivity.
Defined.

(** Exceptions of every sub-scorer and of the collaborator are exceptions
    of the guarded block. *)
Example guarded_exceptions :
  score_resume_try sample_env scenario_job
    (PDict [("experience", PList [PDict [("duration", PInt 5)]])])
  = Raise AttributeError
  /\ score_resume_try sample_env
       (PDict [("education_requirements", PNone)]) scenario_resume
     = Raise AttributeError
  /\ score_resume_try sample_env scenario_job
       (PDict [("summary", PNone)])
     = Raise TypeError
  /\ score_resume_try sample_env (PDict [("job_title", PInt 7)]) scenario_resume
     = Raise AttributeError
  /\ score_resume_try (env_at 2024 6 (Raise ImportError)) scenario_job scenario_resume
     = Raise ImportError
  /\ score_resume_try (env_at 2024 6 (Ok (PList []))) scenario_job scenario_resume
     = Raise AttributeError.
Proof. repeat split; reflexivity. Qed.

(** ** What a score depends on *)








(** ** The alternative key for the positions *)

Lemma lookup_dict_set_other {V : Type} (k k' : string) (v : V)
      (d : list (string * V)) :
  k <> k' -> lookup k (dict_set k' v d) = lookup k d.
Proof.
  intros Hne. induction d as [|[k0 v0] d IH]; cbn.
  - destruct (String.eqb_spec k k'); [contradiction | reflexivity].
  - destruct (String.eqb_spec k' k0) as [->|Hk]; cbn.
    + destruct (String.eqb_spec k k0); [contradiction | reflexivity].
    + now rewrite IH.
Qed.

Lemma resume_corpus_ignores_alternative (d : dict) (w : pyval) :
  resume_corpus (PDict (dict_set "workExperience" w d)) = resume_corpus (PDict d).
Proof.
  unfold resume_corpus, py_get.
  now rewrite !lookup_dict_set_other by discriminate.
Qed.

Lemma experience_score_of_none (required : pyval) :
  experience_score 0 (required_years_of required) = 0.
Proof.
  unfold experience_score, required_years_of, py_ge.
  destruct (parsed_required_years required <=? 0) eqn:Hp.
  - reflexivity.
  - now rewrite Hp.
Qed.

(** C10. For a resume that keeps its positions under ["workExperience"]
    and has no ["experience"] key, a completed scoring takes those
    positions for the title match only: the experience match is computed
    from an empty list of positions, whose total is 0 years, and is 0,
    and the keyword density is what it is for any other content of
    ["workExperience"], that is, the positions' text is not in the
    corpus. *)
Theorem work_experience_only_for_title
        (E : env) (job : pyval) (d : dict) (positions : pyval) :
  lookup "experience" d = None ->
  lookup "workExperience" d = Some positions ->
  let r := score_resume E job (PDict d) in
  error r = None ->
  (exists job_title,
      py_get job "job_title" (PStr "") = Ok job_title
      /\ _calculate_title_match job_title positions = Ok (title_match r))
  /\ py_get (PDict d) "experience" (PList []) = Ok (PList [])
  /\ _calculate_total_experience_years E (PList []) = Ok 0
  /\ experience_match r = 0
  /\ forall other,
      _calculate_keyword_density job (PDict (dict_set "workExperience" other d))
      = Ok (keyword_density r).
Proof.
  intros Hexp Hwork r Herr.
  pose proof (score_resume_completed E job (PDict d) Herr) as H.
  fold r in H. clearbody r. unfold score_resume_try in H.
  apply bind_ok in H as (job_title & Hjt & H).
  apply bind_ok in H as (rs & _ & H).
  apply bind_ok in H as (required & _ & H).
  apply bind_ok in H as (ps & _ & H).
  apply bind_ok in H as (preferred & _ & H).
  apply bind_ok in H as (sk & _ & H).
  apply bind_ok in H as (candidate & _ & H).
  apply bind_ok in H as (experience & Hex & H).
  apply bind_ok in H as (rm & _ & H).
  apply bind_ok in H as (pm & _ & H).
  apply bind_ok in H as (em & Hem & H).
  apply bind_ok in H as (ed & _ & H).
  apply bind_ok in H as (kw & Hkw & H).
  apply bind_ok in H as (tm & Htm & H).
  apply bind_ok in H as (reply & _ & H).
  apply bind_ok in H as (analysis & _ & H).
  apply bind_ok in H as (strong & _ & H).
  apply bind_ok in H as (improve & _ & H).
  injection H as <-. cbn [title_match experience_match keyword_density].
  assert (experience = positions) as ->.
  { unfold title_experience in Hex. cbn [py_get py_contains bind] in Hex.
    rewrite Hexp, Hwork in Hex. cbn in Hex. congruence. }
  repeat split.
  - exists job_title. now split.
  - cbn. now rewrite Hexp.
  - unfold _calculate_experience_match in Hem.
    apply bind_ok in Hem as (text & _ & Hem).
    cbn [py_get bind] in Hem. rewrite Hexp in Hem. cbn in Hem.
    injection Hem as <-. apply experience_score_of_none.
  - intros other. rewrite <- Hkw. unfold _calculate_keyword_density.
    now rewrite resume_corpus_ignores_alternative.
Qed.

Lemma work_experience_only_for_title_witness :
  let r := score_resume sample_env scenario_job alternative_resume in
  (exists job_title,
      py_get scenario_job "job_title" (PStr "") = Ok job_title
      /\ _calculate_title_match job_title
           (PList [PDict [("title", PStr "Data Engineer");
                          ("company", PStr "Docker Inc");
                          ("start_date", PStr "Jan 2019");
                          ("end_date", PStr "present")]])
         = Ok (title_match r))
  /\ py_get alternative_resume "experience" (PList []) = Ok (PList [])
  /\ _calculate_total_experience_years sample_env (PList []) = Ok 0
  /\ experience_match r = 0
  /\ forall other,
      _calculate_keyword_density scenario_job
        (PDict (dict_set "workExperience" other
                  [("name", PStr "Ada");
                   ("skills", PList [PStr "python"; PStr "PostgreSQL"]);
                   ("workExperience",
                    PList [PDict [("title", PStr "Data Engineer");
                                  ("company", PStr "Docker Inc");
                                  ("start_date", PStr "Jan 2019");
                                  ("end_date", PStr "present")]]);
                   ("education",
                    PList [PDict [("degree", PStr "Bachelor of Science")]])]))
      = Ok (keyword_density r).
Proof.
  apply (work_experience_only_for_title sample_env scenario_job); reflexivity.
Defined.

(** The two formats of the same candidate: the title matches in both;
    the years of experience and the company's name, which holds the
    keyword "docker", count only under ["experience"]. *)
Example alternative_format_scores :
  let r := score_resume sample_env scenario_job alternative_resume in
  let r0 :=
    score_resume sample_env scenario_job
      (PDict [("skills", PList [PStr "python"; PStr "PostgreSQL"]);
              ("experience",
               PList [PDict [("title", PStr "Data Engineer");
                             ("company", PStr "Docker Inc");
                             ("start_date", PStr "Jan 2019");
                             ("end_date", PStr "present")]]);
              ("education",
               PList [PDict [("degree", PStr "Bachelor of Science")]])]) in
  title_match r = 100 /\ title_match r0 = 100
  /\ experience_match r = 0 /\ experience_match r0 = 100
  /\ keyword_density r = 2 / 3 * 100 /\ keyword_density r0 = 100.
Proof. repeat split; reflexivity. Qed.

(* ================================================================== *)
(** * Further properties of the scorer                                 *)
(* ================================================================== *)

(** ** Bounds *)

Lemma py_min_capped (x : float) : (100 <? py_min x 100) = false.
Proof.
  unfold py_min. destruct (100 <? x) eqn:H; [reflexivity | exact H].
Qed.

Lemma nonneg_not_below_zero (x : float) : nonneg x -> (x <? 0) = false.
Proof.
  unfold nonneg. rewrite ltb_spec, FloatFacts.Prim2SF_zero. unfold SFltb.
  destruct (Prim2SF x) as [s|s| |s m e]; cbn; intros; subst; reflexivity.
Qed.

Lemma quot_float_zero (p : positive) : quot_float 0 (Zpos p) = 0.
Proof. reflexivity. Qed.

Lemma count_none_present (cands req : list string) (m : pynum) :
  (forall r, In r req -> ~ In r cands /\ ~ partially_matched r cands) ->
  fold_left (skill_step cands) req m = m.
Proof.
  revert m. induction req as [|r req IH]; intros m H; [reflexivity|].
  cbn [fold_left]. destruct (H r (or_introl eq_refl)) as [Hn Hp].
  unfold skill_step at 2.
  destruct (mem r cands) eqn:Hm; [apply mem_In in Hm; contradiction|].
  destruct (partial_match r cands) eqn:Hq;
    [apply partial_match_spec in Hq; contradiction|].
  apply IH. intros r' Hr'. apply H. now right.
Qed.

(** X1. A requirement that is not empty scores 0.0 when no required skill is
    an element of the candidate set or matches it partially; so it does
    for a candidate without skills. *)
Theorem skill_match_nothing_in_common (required candidate : list string) :
  required <> [] ->
  (forall r, In r required -> ~ In r candidate /\ ~ partially_matched r candidate) ->
  _calculate_skill_match required candidate = Ok 0.
Proof.
  intros Hne H. destruct required as [|r0 req]; [congruence|].
  unfold _calculate_skill_match, count_matches.
  rewrite count_none_present by assumption.
  cbn [num_div_len List.length]. unfold py_truediv_int.
  rewrite Nat2Z.inj_succ.
  destruct (Z.succ (Z.of_nat (List.length req))) as [|p|p] eqn:E; try lia.
  cbn [Z.eqb bind]. rewrite quot_float_zero. reflexivity.
Qed.

Lemma skill_match_nothing_in_common_witness :
  _calculate_skill_match ["rust"; "go"] [] = Ok 0.
Proof.
  apply (skill_match_nothing_in_common ["rust"; "go"] []).
  - discriminate.
  - intros r _. split.
    + intros H. exact H.
    + intros (c & H & _). exact H.
Defined.



(** The match percentage of the skill matcher is never above 100. *)
Lemma skill_match_capped (required candidate : list string) (x : float) :
  _calculate_skill_match required candidate = Ok x -> (100 <? x) = false.
Proof.
  unfold _calculate_skill_match. destruct required as [|r req].
  - now intros [= <-].
  - intros H. apply bind_ok in H as (q & _ & H). injection H as <-.
    apply py_min_capped.
Qed.

(** ** The two skill lists *)

Lemma set_add_In (x y : string) (l : list string) :
  In y (set_add x l) <-> y = x \/ In y l.
Proof.
  unfold set_add. destruct (mem x l) eqn:H.
  - apply mem_In in H. split; [auto|]. intros [->|]; assumption.
  - rewrite in_app_iff. cbn. intuition.
Qed.

Lemma set_union_In (y : string) (a b : list string) :
  In y (set_union a b) <-> In y a \/ In y b.
Proof.
  unfold set_union. revert a. induction b as [|x b IH]; intros a; cbn.
  - intuition.
  - rewrite IH, set_add_In. intuition.
Qed.

Lemma set_inter_In (y : string) (a b : list string) :
  In y (set_inter a b) <-> In y a /\ In y b.
Proof. unfold set_inter. now rewrite filter_In, mem_In. Qed.

Lemma set_diff_In (y : string) (a b : list string) :
  In y (set_diff a b) <-> In y a /\ ~ In y b.
Proof.
  unfold set_diff. rewrite filter_In, negb_true_iff.
  split; intros [H1 H2]; split; try assumption.
  - intros H. apply mem_In in H. congruence.
  - destruct (mem y b) eqn:H; [apply mem_In in H; contradiction | reflexivity].
Qed.

(** X3. On a completed scoring, the matching and the missing skills split the
    lower-cased required and preferred skills in two: a skill is among
    the matching ones exactly when it is asked for and the candidate has
    it, among the missing ones exactly when it is asked for and the
    candidate does not have it. *)
Theorem matching_and_missing_partition (E : env) (job resume : pyval) :
  let r := score_resume E job resume in
  error r = None ->
  exists required preferred candidate,
    (let* v := py_get job "required_skills" (PList []) in lower_set v)
    = Ok required
    /\ (let* v := py_get job "preferred_skills" (PList []) in lower_set v)
       = Ok preferred
    /\ (let* v := py_get resume "skills" (PList []) in lower_set v)
       = Ok candidate
    /\ forall s,
        (In s (matching_skills r)
         <-> (In s required \/ In s preferred) /\ In s candidate)
        /\ (In s (missing_skills r)
            <-> (In s required \/ In s preferred) /\ ~ In s candidate).
Proof.
  intros r Herr. pose proof (score_resume_completed E job resume Herr) as H.
  fold r in H. clearbody r. unfold score_resume_try in H.
  apply bind_ok in H as (job_title & _ & H).
  apply bind_ok in H as (rs & Hrs & H).
  apply bind_ok in H as (required & Hreq & H).
  apply bind_ok in H as (ps & Hps & H).
  apply bind_ok in H as (preferred & Hpref & H).
  apply bind_ok in H as (sk & Hsk & H).
  apply bind_ok in H as (candidate & Hcand & H).
  repeat (apply bind_ok in H as (? & _ & H)).
  injection H as <-. cbn [matching_skills missing_skills].
  exists required, preferred, candidate.
  rewrite Hrs, Hps, Hsk. cbn [bind].
  split; [assumption|]. split; [assumption|]. split; [assumption|].
  intros s. rewrite set_inter_In, set_diff_In, set_union_In. tauto.
Qed.

Lemma matching_and_missing_partition_witness :
  let r := score_resume sample_env scenario_job scenario_resume in
  exists required preferred candidate,
    (let* v := py_get scenario_job "required_skills" (PList []) in lower_set v)
    = Ok required
    /\ (let* v := py_get scenario_job "preferred_skills" (PList []) in lower_set v)
       = Ok preferred
    /\ (let* v := py_get scenario_resume "skills" (PList []) in lower_set v)
       = Ok candidate
    /\ forall s,
        (In s (matching_skills r)
         <-> (In s required \/ In s preferred) /\ In s candidate)
        /\ (In s (missing_skills r)
            <-> (In s required \/ In s preferred) /\ ~ In s candidate).
Proof.
  apply (matching_and_missing_partition sample_env scenario_job scenario_resume).
  reflexivity.
Defined.

(** ** TitleMatcher *)



Lemma len_ratio_self {A : Type} (l : list A) :
  l <> [] -> len_ratio l l = Ok 1.
Proof.
  intros Hne. unfold len_ratio, py_truediv_int.
  destruct l as [|a l]; [congruence|]. cbn [List.length].
  rewrite Nat2Z.inj_succ.
  destruct (Z.succ (Z.of_nat (List.length l))) as [|p|p] eqn:E; try lia.
  cbn [Z.eqb]. now rewrite FloatFacts.quot_float_diag.
Qed.



(** X5. Only the first three positions are looked at: whatever follows them,
    well-formed or not, changes neither the result nor whether the call
    raises. *)
Theorem title_match_first_three (job_title : pyval) (recent later : list pyval) :
  (3 <= List.length recent)%nat ->
  _calculate_title_match job_title (PList (recent ++ later))
  = _calculate_title_match job_title (PList recent).
Proof.
  intros Hlen. unfold _calculate_title_match, py_slice3.
  assert (firstn 3 (recent ++ later) = firstn 3 recent) as ->.
  { rewrite firstn_app.
    replace (3 - List.length recent)%nat with 0%nat by lia.
    cbn [firstn]. apply app_nil_r. }
  destruct recent as [|e recent]; [cbn in Hlen; lia|]. reflexivity.
Qed.

Lemma title_match_first_three_witness :
  _calculate_title_match (PStr "Data Engineer")
    (PList ([PDict [("title", PStr "Data Analyst")];
             PDict [("title", PStr "Intern")];
             PDict [("title", PStr "Clerk")]]
            ++ [PDict [("title", PStr "Data Engineer")]; PInt 7]))
  = _calculate_title_match (PStr "Data Engineer")
      (PList [PDict [("title", PStr "Data Analyst")];
              PDict [("title", PStr "Intern")];
              PDict [("title", PStr "Clerk")]]).
Proof.
  apply (title_match_first_three (PStr "Data Engineer")
           [PDict [("title", PStr "Data Analyst")];
            PDict [("title", PStr "Intern")];
            PDict [("title", PStr "Clerk")]]
           [PDict [("title", PStr "Data Engineer")]; PInt 7]).
  cbn. lia.
Defined.

(** ** KeywordDensityScorer *)

Lemma lower_char_idem (c : ascii) : lower_char (lower_char c) = lower_char c.
Proof. destruct c as [[] [] [] [] [] [] [] []]; reflexivity. Qed.

Lemma lower_idem (s : string) : lower (lower s) = lower s.
Proof.
  induction s as [|c s IH]; cbn; [reflexivity|].
  now rewrite lower_char_idem, IH.
Qed.

Lemma string_app_assoc (a b c : string) : ((a ++ b) ++ c = a ++ (b ++ c))%string.
Proof. induction a as [|x a IH]; cbn; [reflexivity | now rewrite IH]. Qed.

Lemma string_app_length (a b : string) :
  String.length (a ++ b) = (String.length a + String.length b)%nat.
Proof. induction a as [|x a IH]; cbn; [reflexivity | now rewrite IH]. Qed.

Lemma string_app_nil_r (a : string) : (a ++ "")%string = a.
Proof. induction a as [|x a IH]; cbn; [reflexivity | now rewrite IH]. Qed.

Lemma lower_app (a b : string) : lower (a ++ b) = (lower a ++ lower b)%string.
Proof. induction a as [|x a IH]; cbn; [reflexivity | now rewrite IH]. Qed.

Lemma occurs_in_length (a b : string) :
  occurs_in a b -> (String.length a <= String.length b)%nat.
Proof. intros (pre & post & ->). rewrite !string_app_length. lia. Qed.

Lemma occurs_in_app_l (a b c : string) : occurs_in a b -> occurs_in a (b ++ c).
Proof.
  intros (pre & post & ->). exists pre, (post ++ c)%string.
  now rewrite !string_app_assoc.
Qed.

Lemma occurs_in_app_r (a b c : string) : occurs_in a c -> occurs_in a (b ++ c).
Proof.
  intros (pre & post & ->). exists (b ++ pre)%string, post.
  now rewrite !string_app_assoc.
Qed.

Lemma occurs_in_join (sep x : string) (l : list string) :
  In x l -> occurs_in x (join sep l).
Proof.
  induction l as [|y l IH]; [intros []|].
  intros [->|H].
  - destruct l as [|z l]; cbn [join].
    + exists "", "". cbn. now rewrite string_app_nil_r.
    + exists "", (sep ++ join sep (z :: l))%string. reflexivity.
  - destruct l as [|z l]; [destruct H|].
    cbn [join]. apply occurs_in_app_r, occurs_in_app_r. now apply IH.
Qed.

Lemma lower_join (sep : string) (l : list string) :
  lower (join sep l) = join (lower sep) (map lower l).
Proof.
  induction l as [|y l IH]; [reflexivity|].
  destruct l as [|z l]; [reflexivity|].
  cbn [join map] in *. now rewrite !lower_app, IH.
Qed.

Lemma set_add_NoDup (x : string) (l : list string) :
  NoDup l -> NoDup (set_add x l).
Proof.
  intros H. unfold set_add. destruct (mem x l) eqn:Hm; [assumption|].
  apply NoDup_app; [assumption | repeat constructor; intros [] |].
  intros y Hy [<-|[]]. apply mem_In in Hy. congruence.
Qed.

Lemma to_set_In (y : string) (l : list string) : In y (to_set l) <-> In y l.
Proof.
  unfold to_set.
  enough (forall acc, In y (fold_left (fun acc x => set_add x acc) l acc)
                      <-> In y acc \/ In y l) as H.
  { rewrite H. cbn [In]. tauto. }
  induction l as [|x l IH]; intros acc; cbn [fold_left In]; [tauto|].
  rewrite IH, set_add_In. intuition (subst; auto).
Qed.

Lemma add_lowered_invariant (v : pyval) (kw kw' : list string) :
  add_lowered kw v = Ok kw' ->
  NoDup kw -> Forall (fun k => lower k = k) kw ->
  NoDup kw' /\ Forall (fun k => lower k = k) kw'.
Proof.
  unfold add_lowered. intros H. apply bind_ok in H as (items & _ & H).
  revert kw H. induction items as [|x items IH]; cbn [foldM]; intros kw H Hn Hl.
  - injection H as <-. now split.
  - apply bind_ok in H as (kw1 & H1 & H).
    apply bind_ok in H1 as (lx & Hx & H1). injection H1 as <-.
    apply (IH _ H).
    + now apply set_add_NoDup.
    + apply Forall_forall. intros k Hk. apply set_add_In in Hk as [->|Hk].
      * destruct x; try discriminate. injection Hx as <-. apply lower_idem.
      * rewrite Forall_forall in Hl. now apply Hl.
Qed.

Lemma job_keywords_facts (job : pyval) (keywords : list string) :
  job_keywords job = Ok keywords ->
  NoDup keywords
  /\ forall k, In k keywords ->
       lower k = k /\ ~ In k common_words /\ (3 <= String.length k)%nat.
Proof.
  unfold job_keywords. intros H.
  apply bind_ok in H as (rs & _ & H).
  apply bind_ok in H as (k1 & H1 & H).
  apply bind_ok in H as (ps & _ & H).
  apply bind_ok in H as (k2 & H2 & H).
  apply bind_ok in H as (cs & _ & H).
  apply bind_ok in H as (k3 & H3 & H).
  injection H as <-.
  destruct (add_lowered_invariant _ _ _ H1 (NoDup_nil _) (Forall_nil _)) as [N1 L1].
  destruct (add_lowered_invariant _ _ _ H2 N1 L1) as [N2 L2].
  destruct (add_lowered_invariant _ _ _ H3 N2 L2) as [N3 L3].
  split; [now apply NoDup_filter|].
  intros k Hk. apply filter_In in Hk as [Hin Hkeep].
  unfold keep_keyword in Hkeep. apply andb_true_iff in Hkeep as [Hc Hlen].
  rewrite Forall_forall in L3. repeat split.
  - now apply L3.
  - intros Hcw. apply mem_In in Hcw. rewrite Hcw in Hc. discriminate.
  - apply Nat.ltb_lt in Hlen. lia.
Qed.

(** X6. The keywords of a posting are distinct and lower-cased, none is one
    of the fourteen common words, and each has at least three
    characters. *)
Theorem job_keywords_invariant (job : pyval) (keywords : list string) :
  job_keywords job = Ok keywords ->
  NoDup keywords
  /\ forall k, In k keywords ->
       lower k = k /\ ~ In k common_words /\ (3 <= String.length k)%nat.
Proof. apply job_keywords_facts. Qed.

Lemma job_keywords_invariant_witness :
  NoDup ["python"; "sql"; "docker"]
  /\ forall k, In k ["python"; "sql"; "docker"] ->
       lower k = k /\ ~ In k common_words /\ (3 <= String.length k)%nat.
Proof.
  apply (job_keywords_invariant
           (PDict [("required_skills", PList [PStr "Python"; PStr "SQL"; PStr "R"]);
                   ("preferred_skills", PList [PStr "Docker"; PStr "python"]);
                   ("critical_keywords", PList [PStr "The"; PStr "With"])])).
  reflexivity.
Defined.

Lemma len_ratio_none {A B : Type} (l : list B) :
  l <> [] -> len_ratio (@nil A) l = Ok 0.
Proof.
  intros Hne. unfold len_ratio, py_truediv_int.
  destruct l as [|a l]; [congruence|]. cbn [List.length].
  rewrite Nat2Z.inj_succ.
  destruct (Z.succ (Z.of_nat (List.length l))) as [|p|p] eqn:E; try lia.
  reflexivity.
Qed.

(** X7. A resume with no skills, no summary and no experience has keyword
    density 0.0 against every posting that has a keyword. *)
Theorem keyword_density_of_blank_resume
        (job : pyval) (keywords : list string) (d : dict) :
  job_keywords job = Ok keywords ->
  keywords <> [] ->
  lookup "skills" d = None ->
  lookup "summary" d = None ->
  lookup "experience" d = None ->
  _calculate_keyword_density job (PDict d) = Ok 0.
Proof.
  intros Hk Hne Hs Hu He. unfold _calculate_keyword_density.
  rewrite Hk. cbn [bind].
  destruct keywords as [|k0 ks] eqn:E; [congruence|]. rewrite <- E in *.
  assert (resume_corpus (PDict d) = Ok " ") as ->.
  { unfold resume_corpus. cbn [py_get]. now rewrite Hs, Hu, He. }
  cbn [bind]. change (lower " ") with " ".
  assert (filter (fun keyword => str_in keyword " ") keywords = []) as ->.
  { destruct (job_keywords_facts job keywords Hk) as [_ Hinv].
    clear E Hk Hne. induction keywords as [|k l IH]; [reflexivity|].
    cbn [filter]. destruct (str_in k " ") eqn:Hin.
    - apply str_in_spec, occurs_in_length in Hin. cbn in Hin.
      destruct (Hinv k (or_introl eq_refl)) as (_ & _ & Hlen). lia.
    - apply IH. intros k' Hk'. apply Hinv. now right. }
  rewrite len_ratio_none by (rewrite E; discriminate). reflexivity.
Qed.


Lemma keyword_density_of_blank_resume_witness :
  _calculate_keyword_density scenario_job (PDict [("name", PStr "Ada")]) = Ok 0.
Proof.
  apply (keyword_density_of_blank_resume scenario_job
           ["python"; "sql"; "docker"] [("name", PStr "Ada")]);
    try reflexivity.
  discriminate.
Defined.

Lemma append_field_extends (text : string) (exp : pyval) (key : string) (t : string) :
  append_field text exp key = Ok t -> exists rest, t = (text ++ rest)%string.
Proof.
  unfold append_field. intros H.
  apply bind_ok in H as (v & _ & H). apply bind_ok in H as (s & _ & H).
  injection H as <-. eauto.
Qed.

Lemma corpus_loop_extends (entries : list pyval) (text t : string) :
  foldM (fun text exp =>
           let* t1 := append_field text exp "title" in
           let* t2 := append_field t1 exp "company" in
           append_field t2 exp "description")
        entries text = Ok t ->
  exists rest, t = (text ++ rest)%string.
Proof.
  revert text. induction entries as [|exp entries IH]; cbn [foldM]; intros text H.
  - injection H as <-. exists "". now rewrite string_app_nil_r.
  - apply bind_ok in H as (t3 & H3 & H).
    apply bind_ok in H3 as (t1 & H1 & H3).
    apply bind_ok in H3 as (t2 & H2 & H3).
    apply append_field_extends in H1 as [r1 ->].
    apply append_field_extends in H2 as [r2 ->].
    apply append_field_extends in H3 as [r3 ->].
    apply IH in H as [r ->].
    exists (r1 ++ r2 ++ r3 ++ r)%string. now rewrite !string_app_assoc.
Qed.

Lemma lowered_items (items : list pyval) (strs ls : list string) :
  mapM py_str items = Ok strs -> mapM py_lower items = Ok ls ->
  ls = map lower strs.
Proof.
  revert strs ls. induction items as [|x items IH]; cbn [mapM]; intros strs ls Hs Hl.
  - injection Hs as <-. now injection Hl as <-.
  - apply bind_ok in Hs as (s & Hx & Hs). apply bind_ok in Hs as (ss & Hss & Hs).
    apply bind_ok in Hl as (l & Hy & Hl). apply bind_ok in Hl as (lls & Hls & Hl).
    injection Hs as <-. injection Hl as <-.
    destruct x; try discriminate. injection Hx as <-. injection Hy as <-.
    cbn [map]. f_equal. now apply IH.
Qed.

(** X8. A candidate whose lower-cased skills include every keyword of the
    posting has keyword density 100.0, whenever the corpus of the resume
    can be built. *)
Theorem keyword_density_all_listed
        (job resume : pyval) (keywords skills : list string) (corpus : string) :
  job_keywords job = Ok keywords ->
  keywords <> [] ->
  (let* v := py_get resume "skills" (PList []) in lower_set v) = Ok skills ->
  (forall k, In k keywords -> In k skills) ->
  resume_corpus resume = Ok corpus ->
  _calculate_keyword_density job resume = Ok 100.
Proof.
  intros Hk Hne Hskills Hall Hcorpus. unfold _calculate_keyword_density.
  rewrite Hk, Hcorpus. cbn [bind].
  assert (forall k, In k skills -> str_in k (lower corpus) = true) as Hin.
  { unfold resume_corpus in Hcorpus.
    apply bind_ok in Hcorpus as (sk & Hsk & H).
    apply bind_ok in H as (joined & Hj & H).
    apply bind_ok in H as (su & _ & H).
    apply bind_ok in H as (summary & _ & H).
    apply bind_ok in H as (ex & _ & H).
    apply bind_ok in H as (entries & _ & H).
    apply corpus_loop_extends in H as [rest ->].
    rewrite Hsk in Hskills. cbn [bind] in Hskills.
    unfold lower_set in Hskills. unfold py_join_space in Hj.
    apply bind_ok in Hskills as (items & Hitems & Hskills).
    apply bind_ok in Hskills as (ls & Hls & Hskills). injection Hskills as <-.
    rewrite Hitems in Hj. cbn [bind] in Hj.
    apply bind_ok in Hj as (strs & Hstrs & Hj). injection Hj as <-.
    rewrite (lowered_items items strs ls Hstrs Hls).
    intros k Hkin. apply (proj1 (to_set_In _ _)) in Hkin.
    apply str_in_spec. rewrite !lower_app.
    do 2 apply occurs_in_app_l. apply occurs_in_app_r.
    rewrite lower_join. now apply occurs_in_join. }
  assert (filter (fun keyword => str_in keyword (lower corpus)) keywords = keywords)
    as ->.
  { apply forallb_filter_id, forallb_forall. intros k Hkin. auto. }
  destruct keywords as [|k0 ks]; [congruence|].
  rewrite len_ratio_self by discriminate. reflexivity.
Qed.

Lemma keyword_density_all_listed_witness :
  _calculate_keyword_density scenario_job
    (PDict [("skills", PList [PStr "SQL"; PStr "Docker"; PStr "Python"; PStr "Go"])])
  = Ok 100.
Proof.
  apply (keyword_density_all_listed scenario_job
           (PDict [("skills",
                    PList [PStr "SQL"; PStr "Docker"; PStr "Python"; PStr "Go"])])
           ["python"; "sql"; "docker"] ["sql"; "docker"; "python"; "go"]
           "SQL Docker Python Go ");
    try reflexivity.
  - discriminate.
  - cbn. intuition.
Defined.

(** ** EducationRanker *)

Lemma scan_fold_bounds (tbl : list (string * Z)) (text : string) (acc : Z) :
  Forall (fun p => (snd p <= 5)%Z) tbl ->
  let r := fold_left
             (fun lvl '(level, score) =>
                if str_in level text then Z.max lvl score else lvl) tbl acc in
  (acc <= r <= Z.max acc 5)%Z.
Proof.
  revert acc. induction tbl as [|[level score] tbl IH]; intros acc H; cbn.
  - lia.
  - inversion H as [|? ? Hs Ht]; subst. cbn in Hs.
    destruct (str_in level text).
    + specialize (IH (Z.max acc score) Ht). cbn in IH. lia.
    + specialize (IH acc Ht). cbn in IH. lia.
Qed.

Lemma scan_fold_reaches (tbl : list (string * Z)) (text level : string)
      (score acc : Z) :
  In (level, score) tbl -> str_in level text = true ->
  (score <= fold_left
              (fun lvl '(level, score) =>
                 if str_in level text then Z.max lvl score else lvl) tbl acc)%Z.
Proof.
  revert acc. induction tbl as [|[l s] tbl IH]; intros acc Hin Hs; [destruct Hin|].
  cbn [fold_left]. destruct Hin as [[= -> ->]|Hin].
  - rewrite Hs.
    assert (forall a, (a <= fold_left
              (fun lvl '(level, score) =>
                 if str_in level text then Z.max lvl score else lvl) tbl a)%Z) as Hmono.
    { clear. induction tbl as [|[l s] tbl IH]; intros a; cbn; [lia|].
      destruct (str_in l text); [specialize (IH (Z.max a s)) | specialize (IH a)];
        lia. }
    specialize (Hmono (Z.max acc score)). lia.
  - now apply IH.
Qed.

Lemma scan_fold_nothing (tbl : list (string * Z)) (text : string) (acc : Z) :
  (forall level score, In (level, score) tbl -> ~ occurs_in level text) ->
  fold_left
    (fun lvl '(level, score) =>
       if str_in level text then Z.max lvl score else lvl) tbl acc = acc.
Proof.
  revert acc. induction tbl as [|[l s] tbl IH]; intros acc H; [reflexivity|].
  cbn [fold_left].
  destruct (str_in l text) eqn:E.
  - apply str_in_spec in E. exfalso. apply (H l s); [now left | assumption].
  - apply IH. intros level score Hin. apply (H level score). now right.
Qed.

Lemma education_levels_bounded : Forall (fun p => (snd p <= 5)%Z) education_levels.
Proof. repeat constructor; cbn; lia. Qed.

Lemma scan_levels_bounds (text : string) (acc : Z) :
  (acc <= scan_levels text acc <= Z.max acc 5)%Z.
Proof. apply (scan_fold_bounds education_levels text acc education_levels_bounded). Qed.

(** The loop over the degrees of records that hold text under "degree". *)
Lemma degree_loop (entries : list pyval) (lvl : Z) :
  forallb (text_or_absent "degree") entries = true ->
  exists lvl',
    foldM (fun lvl edu =>
             let* d := py_get edu "degree" (PStr "") in
             let* degree := py_lower d in
             Ok (scan_levels degree lvl))
          entries lvl = Ok lvl'
    /\ (lvl <= lvl' <= Z.max lvl 5)%Z
    /\ (forall e degree,
           In e entries -> py_get e "degree" (PStr "") = Ok (PStr degree) ->
           occurs_in "phd" (lower degree) \/ occurs_in "doctorate" (lower degree) ->
           (5 <= lvl')%Z)
    /\ ((forall e degree,
            In e entries -> py_get e "degree" (PStr "") = Ok (PStr degree) ->
            forall level score, In (level, score) education_levels ->
                                ~ occurs_in level (lower degree)) ->
        lvl' = lvl).
Proof.
  revert lvl. induction entries as [|e entries IH]; intros lvl H.
  - exists lvl. cbn. repeat split; try lia.
  - cbn [forallb] in H. apply andb_true_iff in H as [He Hes].
    assert (exists degree, py_get e "degree" (PStr "") = Ok (PStr degree))
      as [degree Hd].
    { unfold text_or_absent in He. destruct e; try discriminate. cbn.
      destruct (lookup "degree" d) as [[]|]; try discriminate; eauto. }
    cbn [foldM]. rewrite Hd. cbn [bind py_lower].
    destruct (IH (scan_levels (lower degree) lvl) Hes)
      as (lvl' & -> & Hb & Hphd & Hnone).
    pose proof (scan_levels_bounds (lower degree) lvl) as Hs.
    exists lvl'. split; [reflexivity|]. split; [lia|]. split.
    + intros e' degree' [<-|Hin] Hd' Hocc.
      * rewrite Hd in Hd'. injection Hd' as <-.
        assert (5 <= scan_levels (lower degree) lvl)%Z; [|lia].
        destruct Hocc as [Ho|Ho]; apply str_in_spec in Ho.
        -- apply (scan_fold_reaches education_levels _ "phd" 5 lvl);
             [cbn; tauto | assumption].
        -- apply (scan_fold_reaches education_levels _ "doctorate" 5 lvl);
             [cbn; tauto | assumption].
      * now apply (Hphd e' degree').
    + intros Hno. rewrite Hnone.
      * apply scan_fold_nothing. intros level score Hin.
        apply (Hno e degree (or_introl eq_refl) Hd level score Hin).
      * intros e' degree' Hin Hd' level score Hl.
        apply (Hno e' degree' (or_intror Hin) Hd' level score Hl).
Qed.

(** X9. A candidate with a degree whose text mentions "phd" or "doctorate",
    in any case, has education match 100.0 against every requirement
    text, when all degrees are text. *)
Theorem education_doctorate_always_full
        (job resume : pyval) (requirement : string) (entries : list pyval)
        (e : pyval) (degree : string) :
  py_get job "education_requirements" (PStr "") = Ok (PStr requirement) ->
  py_get resume "education" (PList []) = Ok (PList entries) ->
  forallb (text_or_absent "degree") entries = true ->
  In e entries ->
  py_get e "degree" (PStr "") = Ok (PStr degree) ->
  occurs_in "phd" (lower degree) \/ occurs_in "doctorate" (lower degree) ->
  _calculate_education_match job resume = Ok 100.
Proof.
  intros Hreq Hedu Htext Hin Hd Hocc. unfold _calculate_education_match.
  rewrite Hreq, Hedu. cbn [bind py_lower py_iter].
  destruct (degree_loop entries 0 Htext) as (lvl & -> & Hb & Hphd & _).
  cbn [bind]. specialize (Hphd e degree Hin Hd Hocc).
  pose proof (scan_levels_bounds (lower requirement) 0) as Hr.
  unfold education_score.
  destruct (scan_levels (lower requirement) 0 =? 0)%Z;
    (destruct (lvl >=? _)%Z eqn:E; [reflexivity | lia]).
Qed.

Lemma education_doctorate_always_full_witness :
  _calculate_education_match phd_job
    (PDict [("education",
             PList [PDict [("degree", PStr "BSc Physics")];
                    PDict [("degree", PStr "Doctorate in Physics")]])])
  = Ok 100.
Proof.
  apply (education_doctorate_always_full phd_job
           (PDict [("education",
                    PList [PDict [("degree", PStr "BSc Physics")];
                           PDict [("degree", PStr "Doctorate in Physics")]])])
           "PhD required"
           [PDict [("degree", PStr "BSc Physics")];
            PDict [("degree", PStr "Doctorate in Physics")]]
           (PDict [("degree", PStr "Doctorate in Physics")])
           "Doctorate in Physics");
    try reflexivity.
  - cbn. tauto.
  - right. now exists "", " in physics".
Defined.

(** X10. A candidate none of whose degree texts contains a keyword of the
    level table, and so a candidate with no education entries at all, has
    education match 0.0 against every requirement text. *)
Theorem education_unrecognised_is_zero
        (job resume : pyval) (requirement : string) (entries : list pyval) :
  py_get job "education_requirements" (PStr "") = Ok (PStr requirement) ->
  py_get resume "education" (PList []) = Ok (PList entries) ->
  forallb (text_or_absent "degree") entries = true ->
  (forall e degree,
      In e entries -> py_get e "degree" (PStr "") = Ok (PStr degree) ->
      forall level score, In (level, score) education_levels ->
                          ~ occurs_in level (lower degree)) ->
  _calculate_education_match job resume = Ok 0.
Proof.
  intros Hreq Hedu Htext Hno. unfold _calculate_education_match.
  rewrite Hreq, Hedu. cbn [bind py_lower py_iter].
  destruct (degree_loop entries 0 Htext) as (lvl & -> & _ & _ & Hnone).
  cbn [bind]. rewrite (Hnone Hno).
  pose proof (scan_levels_bounds (lower requirement) 0) as Hr.
  unfold education_score.
  destruct (scan_levels (lower requirement) 0 =? 0)%Z eqn:Hz;
    (destruct (0 >=? _)%Z eqn:E; [lia | reflexivity]).
Qed.

Lemma education_unrecognised_is_zero_witness :
  _calculate_education_match scenario_job (PDict [("name", PStr "Ada")]) = Ok 0.
Proof.
  apply (education_unrecognised_is_zero scenario_job (PDict [("name", PStr "Ada")])
           "Bachelor's degree" []);
    try reflexivity.
  intros e degree [].
Defined.

(** ** DurationParser *)

Lemma total_fold_nonneg (E : env) (entries : list pyval) (total : float) :
  nonneg total ->
  nonneg (fold_left (fun t exp => t + contribution E exp) entries total).
Proof.
  revert total. induction entries as [|exp entries IH]; intros total H;
    [assumption|].
  cbn [fold_left]. apply IH.
  apply FloatFacts.add_nonneg; [assumption | apply contribution_nonneg].
Qed.

(** X11. On entries of the data model the total of experience years is never
    below zero, whatever the dates say and whenever the call is made. *)
Theorem total_experience_never_negative (E : env) (entries : list pyval) :
  forallb wf_entry entries = true ->
  exists total,
    _calculate_total_experience_years E (PList entries) = Ok total
    /\ (total <? 0) = false.
Proof.
  intros Hwf. unfold _calculate_total_experience_years. cbn [py_iter bind].
  rewrite (total_years_from E entries 0 Hwf FloatFacts.zero_nonneg).
  eexists. split; [reflexivity|].
  apply nonneg_not_below_zero, total_fold_nonneg, FloatFacts.zero_nonneg.
Qed.

Lemma total_experience_never_negative_witness :
  exists total,
    _calculate_total_experience_years sample_env (PList sample_experience) = Ok total
    /\ (total <? 0) = false.
Proof.
  apply (total_experience_never_negative sample_env sample_experience).
  reflexivity.
Defined.

(* ================================================================== *)
(** * Further properties of the ranker                                 *)
(* ================================================================== *)

(** ** _get_experience_level *)

Lemma level_step_text (total : pynum) (exp : pyval) (s : string) :
  text_duration exp = Some s ->
  level_step total exp
  = if str_in "year" (lower s) then
      match re_search re_years (lower s) with
      | Some g => Ok (num_add_float total (float_of_decimal (group1 g)))
      | None => Ok (num_add_int total 1)
      end
    else Ok total.
Proof.
  unfold text_duration, level_step. destruct exp; try discriminate.
  cbn [py_get]. destruct (lookup "duration" d) as [[]|]; try discriminate;
    intros [= <-]; reflexivity.
Qed.

(** X12. The experience level counts nothing for a position whose duration
    text does not contain "year", in any case: durations in months and
    positions described by their dates only leave it at 0. *)
Theorem experience_level_needs_year (candidate : pyval) (entries : list pyval) :
  py_get candidate "experience" (PList []) = Ok (PList entries) ->
  (forall e, In e entries ->
             exists s, text_duration e = Some s /\ ~ occurs_in "year" (lower s)) ->
  _get_experience_level candidate = Ok (NInt 0).
Proof.
  intros Hexp. unfold _get_experience_level. rewrite Hexp. cbn [bind py_iter].
  clear Hexp. generalize (NInt 0).
  induction entries as [|e entries IH]; intros total H; [reflexivity|].
  cbn [foldM]. destruct (H e (or_introl eq_refl)) as (s & Hs & Hn).
  rewrite (level_step_text total e s Hs).
  destruct (str_in "year" (lower s)) eqn:Hy;
    [apply str_in_spec in Hy; contradiction|].
  cbn [bind]. apply IH. intros e' He'. apply H. now right.
Qed.

Lemma experience_level_needs_year_witness :
  _get_experience_level
    (PDict [("experience",
             PList [PDict [("title", PStr "Engineer");
                           ("start_date", PStr "Jan 2015");
                           ("end_date", PStr "Dec 2020")];
                    PDict [("duration", PStr "18 Months")]])])
  = Ok (NInt 0).
Proof.
  apply (experience_level_needs_year
           (PDict [("experience",
                    PList [PDict [("title", PStr "Engineer");
                                  ("start_date", PStr "Jan 2015");
                                  ("end_date", PStr "Dec 2020")];
                           PDict [("duration", PStr "18 Months")]])])
           [PDict [("title", PStr "Engineer");
                   ("start_date", PStr "Jan 2015");
                   ("end_date", PStr "Dec 2020")];
            PDict [("duration", PStr "18 Months")]]).
  - reflexivity.
  - intros e [<-|[<-|[]]].
    + exists "". split; [reflexivity|].
      intros H. apply str_in_spec in H. discriminate.
    + exists "18 Months". split; [reflexivity|].
      intros H. apply str_in_spec in H. discriminate.
Defined.

Lemma level_loop_null (entries : list pyval) (total : pynum) :
  forallb wf_entry entries = true ->
  (exists d, In (PDict d) entries /\ lookup "duration" d = Some PNone) ->
  foldM level_step entries total = Raise AttributeError.
Proof.
  revert total. induction entries as [|e entries IH]; intros total Hwf Hex.
  - destruct Hex as (d & [] & _).
  - cbn [forallb] in Hwf. apply andb_true_iff in Hwf as [He Hes].
    cbn [foldM]. unfold wf_entry in He.
    destruct (text_field "duration" e) as [du|] eqn:Hdu; [|discriminate].
    clear He. unfold text_field in Hdu. destruct e as [| | | | | |m]; try discriminate.
    destruct (lookup "duration" m) as [v|] eqn:Hl.
    + destruct v; try discriminate.
      * unfold level_step. cbn [py_get]. rewrite Hl. reflexivity.
      * rewrite (level_step_text total (PDict m) s)
          by (unfold text_duration; now rewrite Hl).
        assert (Hrest : forall t, foldM level_step entries t = Raise AttributeError).
        { intros t. apply IH; [assumption|].
          destruct Hex as (d & [Hd|Hd] & Hn); [|eauto].
          injection Hd as <-. rewrite Hl in Hn. discriminate. }
        destruct (str_in "year" (lower s)); [|cbn [bind]; apply Hrest].
        destruct (re_search re_years (lower s)); cbn [bind]; apply Hrest.
    + rewrite (level_step_text total (PDict m) "")
        by (unfold text_duration; now rewrite Hl).
      cbn [bind]. apply IH; [assumption|].
      destruct Hex as (d & [Hd|Hd] & Hn); [|eauto].
      injection Hd as <-. rewrite Hl in Hn. discriminate.
Qed.

(** X13. A null duration, which the scorer's duration parser reads as an
    absent one, makes the ranker's experience level raise: on entries of
    the data model one of which has a null duration, the parser returns a
    total and the experience level raises [AttributeError]. *)
Theorem experience_level_rejects_null_duration
        (E : env) (candidate : pyval) (entries : list pyval) :
  py_get candidate "experience" (PList []) = Ok (PList entries) ->
  forallb wf_entry entries = true ->
  (exists d, In (PDict d) entries /\ lookup "duration" d = Some PNone) ->
  _get_experience_level candidate = Raise AttributeError
  /\ exists total, _calculate_total_experience_years E (PList entries) = Ok total.
Proof.
  intros Hexp Hwf Hex. split.
  - unfold _get_experience_level. rewrite Hexp. cbn [bind py_iter].
    now apply level_loop_null.
  - unfold _calculate_total_experience_years. cbn [py_iter bind].
    rewrite (total_years_from E entries 0 Hwf FloatFacts.zero_nonneg). eauto.
Qed.

Lemma experience_level_rejects_null_duration_witness :
  _get_experience_level (PDict [("experience", PList sample_experience)])
  = Raise AttributeError
  /\ exists total,
      _calculate_total_experience_years sample_env (PList sample_experience)
      = Ok total.
Proof.
  apply (experience_level_rejects_null_duration sample_env
           (PDict [("experience", PList sample_experience)]) sample_experience).
  - reflexivity.
  - reflexivity.
  - exists [("title", PStr "Volunteer"); ("duration", PNone);
            ("start_date", PStr "last summer")].
    split; [cbn; tauto | reflexivity].
Defined.

(** ** The scoring loop and the sort *)

Lemma lookup_dict_set_same {V : Type} (k : string) (v : V) (d : list (string * V)) :
  lookup k (dict_set k v d) = Some v.
Proof.
  induction d as [|[k0 v0] d IH]; cbn.
  - now rewrite String.eqb_refl.
  - destruct (String.eqb_spec k k0) as [->|Hk]; cbn.
    + now rewrite String.eqb_refl.
    + destruct (String.eqb_spec k k0); [contradiction | assumption].
Qed.

Lemma dict_set_twice {V : Type} (k : string) (v v' : V) (d : list (string * V)) :
  dict_set k v (dict_set k v' d) = dict_set k v d.
Proof.
  induction d as [|[k0 v0] d IH]; cbn.
  - now rewrite String.eqb_refl.
  - destruct (String.eqb_spec k k0) as [->|Hk]; cbn.
    + now rewrite String.eqb_refl.
    + destruct (String.eqb_spec k k0); [contradiction | now rewrite IH].
Qed.


Lemma composite_of_ignores_composite (d : dict) (v : float) :
  composite_of (PDict (dict_set "composite_score" (PFloat v) d))
  = composite_of (PDict d).
Proof.
  unfold composite_of, py_get.
  now rewrite !lookup_dict_set_other by discriminate.
Qed.

Lemma rescored_inv (c c' : pyval) :
  rescored c = Ok c' ->
  exists d v, c = PDict d /\ composite_of c = Ok v
              /\ c' = PDict (dict_set "composite_score" (PFloat v) d).
Proof.
  unfold rescored. intros H. apply bind_ok in H as (v & Hv & H).
  destruct c; try discriminate. injection H as <-. eauto.
Qed.

Lemma rescored_fixed (c c' : pyval) : rescored c = Ok c' -> rescored c' = Ok c'.
Proof.
  intros H. apply rescored_inv in H as (d & v & -> & Hv & ->).
  unfold rescored. rewrite composite_of_ignores_composite, Hv.
  cbn [bind set_composite]. now rewrite dict_set_twice.
Qed.

Lemma score_candidates_spec (cs : list pyval) :
  forall scored err,
    score_candidates cs = (scored, err) ->
    exists done rest,
      cs = (done ++ rest)%list
      /\ Forall2 (fun c c' => rescored c = Ok c') done
           (firstn (List.length done) scored)
      /\ scored = (firstn (List.length done) scored ++ rest)%list
      /\ match err with
         | None => rest = []
         | Some e => exists bad post, rest = bad :: post /\ rescored bad = Raise e
         end.
Proof.
  induction cs as [|c cs IH]; intros scored err; cbn [score_candidates].
  - intros [= <- <-]. exists [], []. repeat split. constructor.
  - fold (rescored c). destruct (rescored c) as [c'|e] eqn:Hc.
    + destruct (score_candidates cs) as [rest' err'] eqn:Hs.
      intros [= <- <-].
      destruct (IH rest' err' eq_refl) as (done & rest & -> & HF & Hsc & Herr).
      exists (c :: done), rest. cbn [List.length firstn app].
      repeat split.
      * now constructor.
      * now rewrite <- Hsc.
      * exact Herr.
    + intros [= <- <-]. exists [], (c :: cs). cbn. repeat split.
      * constructor.
      * eauto.
Qed.

Lemma score_candidates_ok (cs scored : list pyval) :
  score_candidates cs = (scored, None) ->
  Forall2 (fun c c' => rescored c = Ok c') cs scored.
Proof.
  intros H. destruct (score_candidates_spec cs scored None H)
    as (done & rest & -> & HF & Hsc & ->).
  rewrite app_nil_r in *. now rewrite Hsc.
Qed.

Lemma score_candidates_fixed (l : list pyval) :
  Forall (fun c => rescored c = Ok c) l -> score_candidates l = (l, None).
Proof.
  induction 1 as [|c l Hc _ IH]; [reflexivity|].
  cbn [score_candidates]. fold (rescored c). now rewrite Hc, IH.
Qed.

Lemma sorted_desc_fixed {A : Type} (key : A -> float) (l : list A) :
  StronglySorted (fun a b => (key a <? key b) = false) l ->
  sorted_desc key l = l.
Proof.
  induction 1 as [|x l Hs IH Hx]; [reflexivity|].
  cbn [sorted_desc fold_right]. fold (sorted_desc key l). rewrite IH.
  destruct l as [|y l]; [reflexivity|].
  cbn [insert_desc]. inversion Hx; subst.
  now replace (key x <? key y) with false.
Qed.



(** X15. Ranking a list that a completed ranking returned changes nothing:
    the scores are recomputed to the same values and the order stays,
    whatever the collaborator does at the second call. *)
Theorem ranking_idempotent
        (E E' : env) (job job' : pyval) (candidates : list pyval) :
  let r := rank_candidates E job candidates in
  rank_error r = None ->
  Forall (fun c => is_nan (sort_key c) = false) (ranked_candidates r) ->
  ranked_candidates (rank_candidates E' job' (ranked_candidates r))
  = ranked_candidates r.
Proof.
  intros r Herr Hnan. subst r.
  destruct (rank_candidates_cases E job candidates)
    as [(_ & Hnone & Hr)|(Hne & _)]; [|contradiction].
  destruct (score_candidates candidates) as [scored err] eqn:Hs.
  cbn [fst snd] in *. subst err. rewrite Hr in *.
  set (ranked := sorted_desc sort_key scored) in *.
  assert (Hfix : Forall (fun c => rescored c = Ok c) ranked).
  { apply (Permutation_Forall (Permutation_sym (sorted_desc_perm sort_key scored))).
    apply score_candidates_ok in Hs. clear -Hs.
    induction Hs as [|c c' cs scored' Hc _ IH]; [constructor|].
    constructor; [|exact IH].
    now apply (rescored_fixed c). }
  assert (Hsorted : sorted_desc sort_key ranked = ranked).
  { apply sorted_desc_fixed. apply sorted_desc_sorted.
    now apply (Permutation_Forall (sorted_desc_perm sort_key scored)). }
  destruct (rank_candidates_cases E' job' ranked) as [(_ & _ & ->)|(_ & ->)];
    rewrite (score_candidates_fixed ranked Hfix); cbn [fst]; [exact Hsorted|].
  reflexivity.
Qed.

Lemma ranking_idempotent_witness :
  ranked_candidates
    (rank_candidates (env_at 2030 1 (Raise ImportError)) PNone
       (ranked_candidates (rank_candidates sample_env (PDict []) sample_pool)))
  = ranked_candidates (rank_candidates sample_env (PDict []) sample_pool).
Proof.
  apply (ranking_idempotent sample_env (env_at 2030 1 (Raise ImportError))
           (PDict []) PNone sample_pool).
  - reflexivity.
  - repeat constructor.
Defined.




Lemma score_candidates_app (pre rest : list pyval) (scored : list pyval) :
  score_candidates pre = (scored, None) ->
  score_candidates (pre ++ rest)%list
  = ((scored ++ fst (score_candidates rest))%list, snd (score_candidates rest)).
Proof.
  revert scored. induction pre as [|c pre IH]; intros scored;
    cbn [score_candidates app].
  - intros [= <-]. cbn [app]. now destruct (score_candidates rest).
  - fold (rescored c). destruct (rescored c) as [c'|e]; [|discriminate].
    destruct (score_candidates pre) as [sp ep] eqn:Hp.
    intros [= <- ->]. rewrite (IH sp eq_refl).
    reflexivity.
Qed.

(** X17. When a candidate makes the scoring loop raise, the call reports the
    exception and returns the list unsorted: the candidates before it
    carry their composite score, it and those after it are as they were
    given, and the collaborator is not asked for insights. *)
Theorem ranking_failure_keeps_input_order
        (E : env) (job : pyval) (before after : list pyval)
        (bad : pyval) (e : exn) :
  forallb numeric_candidate before = true ->
  composite_of bad = Raise e ->
  let r := rank_candidates E job (before ++ bad :: after)%list in
  rank_error r = Some e
  /\ insights r = PStr "Error generating candidate rankings."
  /\ exists scored,
      Forall2 scored_by_formula before scored
      /\ ranked_candidates r = (scored ++ bad :: after)%list.
Proof.
  intros Hnum Hbad r.
  destruct (score_candidates_numeric before Hnum) as (scored & Hs & HF).
  assert (Hall : score_candidates (before ++ bad :: after)%list
                 = ((scored ++ bad :: after)%list, Some e)).
  { rewrite (score_candidates_app before (bad :: after) scored Hs).
    cbn [score_candidates]. rewrite Hbad. reflexivity. }
  subst r. unfold rank_candidates. rewrite Hall.
  destruct (before ++ bad :: after)%list eqn:Hl.
  - destruct before; discriminate.
  - cbn. repeat split. exists scored. now split.
Qed.

Lemma ranking_failure_keeps_input_order_witness :
  let r := rank_candidates sample_env (PDict [])
             ([PDict [("name", PStr "Ada"); ("ats_score", PFloat 10)];
               PDict [("name", PStr "Bob"); ("ats_score", PInt 90)]]
              ++ PDict [("name", PStr "Cy"); ("ats_score", PStr "high")]
                 :: [PDict [("name", PStr "Di"); ("ats_score", PFloat 99)]])%list in
  rank_error r = Some TypeError
  /\ insights r = PStr "Error generating candidate rankings."
  /\ exists scored,
      Forall2 scored_by_formula
        [PDict [("name", PStr "Ada"); ("ats_score", PFloat 10)];
         PDict [("name", PStr "Bob"); ("ats_score", PInt 90)]] scored
      /\ ranked_candidates r
         = (scored
            ++ PDict [("name", PStr "Cy"); ("ats_score", PStr "high")]
               :: [PDict [("name", PStr "Di"); ("ats_score", PFloat 99)]])%list.
Proof.
  apply (ranking_failure_keeps_input_order sample_env (PDict [])
           [PDict [("name", PStr "Ada"); ("ats_score", PFloat 10)];
            PDict [("name", PStr "Bob"); ("ats_score", PInt 90)]]
           [PDict [("name", PStr "Di"); ("ats_score", PFloat 99)]]
           (PDict [("name", PStr "Cy"); ("ats_score", PStr "high")]) TypeError);
    reflexivity.
Defined.

(** ** The skills all top candidates have *)

Lemma common_matching_from (x : string) (rest : list (list string))
      (common : list string) :
  In x common -> Forall (In x) rest ->
  forall y, In y (fold_left common_matching_step rest common)
            <-> In y common /\ Forall (In y) rest.
Proof.
  revert common. induction rest as [|s rest IH]; intros common Hx Hall y.
  - cbn. split; [intros H; split; [assumption | constructor] | tauto].
  - inversion Hall as [|? ? Hxs Hrest]; subst. cbn [fold_left].
    assert (common_matching_step common s = set_inter common s) as ->.
    { destruct common; [destruct Hx | reflexivity]. }
    rewrite (IH (set_inter common s)); [|now apply set_inter_In | assumption].
    rewrite set_inter_In. split.
    + intros [[Hc Hs] Hr]. split; [assumption | now constructor].
    + intros [Hc Hr]. inversion Hr; subst. tauto.
Qed.

(** X18. When the top candidates have at least one matching skill in common,
    the skills reported as common to all are exactly the skills that
    every one of them has. *)
Theorem common_matching_exact (skill_sets : list (list string)) (shared : string) :
  skill_sets <> [] ->
  Forall (In shared) skill_sets ->
  forall y, In y (common_matching_loop skill_sets) <-> Forall (In y) skill_sets.
Proof.
  intros Hne Hall y. destruct skill_sets as [|s rest]; [congruence|].
  inversion Hall as [|? ? Hs Hrest]; subst.
  unfold common_matching_loop. cbn [fold_left common_matching_step].
  rewrite (common_matching_from shared rest s Hs Hrest). split.
  - intros [H1 H2]. now constructor.
  - intros H. inversion H; subst. tauto.
Qed.

Lemma common_matching_exact_witness :
  In "sql" (common_matching_loop [["python"; "sql"]; ["sql"; "go"]; ["rust"; "sql"]])
  <-> Forall (In "sql") [["python"; "sql"]; ["sql"; "go"]; ["rust"; "sql"]].
Proof.
  apply (common_matching_exact
           [["python"; "sql"]; ["sql"; "go"]; ["rust"; "sql"]] "sql").
  - discriminate.
  - repeat constructor; cbn; tauto.
Defined.

Lemma set_inter_disjoint (a b : list string) :
  (forall x, In x a -> ~ In x b) -> set_inter a b = [].
Proof.
  intros H. unfold set_inter. induction a as [|x a IH]; [reflexivity|].
  cbn [filter]. destruct (mem x b) eqn:Hm.
  - apply mem_In in Hm. exfalso. apply (H x); [now left | assumption].
  - apply IH. intros y Hy. apply H. now right.
Qed.

(** X19. When the first two top candidates have no matching skill in common,
    the loop starts afresh at the third: what it reports as common to all
    is what it would report for the candidates from the third on, and a
    skill that the first two lack can be among it. *)
Theorem common_matching_forgets_disjoint
        (first second : list string) (others : list (list string)) :
  first <> [] ->
  (forall x, In x first -> ~ In x second) ->
  common_matching_loop (first :: second :: others) = common_matching_loop others.
Proof.
  intros Hne Hdis. unfold common_matching_loop.
  destruct first as [|x first]; [congruence|].
  cbn [fold_left common_matching_step].
  now rewrite (set_inter_disjoint (x :: first) second Hdis).
Qed.

Lemma common_matching_forgets_disjoint_witness :
  common_matching_loop [["python"]; ["java"]; ["java"; "go"]]
  = common_matching_loop [["java"; "go"]].
Proof.
  apply (common_matching_forgets_disjoint ["python"] ["java"] [["java"; "go"]]).
  - discriminate.
  - intros x [<-|[]] [H|[]]. discriminate.
Defined.

(* ================================================================== *)
(** * Properties of JsonHandler                                        *)
(* ================================================================== *)

Lemma clean_entry_value (result : dict) (key : string) (value : pyval) :
  clean_entry clean_none_values result key value
  = match value with
    | PNone => result
    | _ => dict_set key (cleaned_value value) result
    end.
Proof. now destruct value. Qed.

Lemma clean_none_values_dict (d : dict) :
  clean_none_values (PDict d) = PDict (clean_loop d []).
Proof.
  unfold clean_loop. cbn [clean_none_values]. f_equal.
  generalize (@nil (string * pyval)).
  induction d as [|[key value] d IH]; intros result; [reflexivity|].
  cbn [fold_left fst snd]. rewrite <- IH. now destruct value.
Qed.

Lemma clean_loop_lookup (d : dict) (result : dict) (k : string) :
  distinct_keys d ->
  lookup k (clean_loop d result)
  = match lookup k d with
    | None | Some PNone => lookup k result
    | Some v => Some (cleaned_value v)
    end.
Proof.
  unfold distinct_keys, clean_loop. revert result.
  induction d as [|[key value] d IH]; intros result Hnd; [reflexivity|].
  cbn [map fst] in Hnd. inversion Hnd as [|? ? Hnotin Hnd']; subst.
  cbn [fold_left fst snd lookup]. rewrite (IH _ Hnd'), clean_entry_value.
  destruct (String.eqb_spec k key) as [->|Hk].
  - assert (lookup key d = None) as ->.
    { clear -Hnotin. induction d as [|[k0 v0] d IH]; [reflexivity|].
      cbn in *. destruct (String.eqb_spec key k0) as [->|]; [tauto|].
      apply IH. tauto. }
    destruct value; try reflexivity; apply lookup_dict_set_same.
  - destruct (lookup k d) as [[]|]; try reflexivity;
      destruct value; try reflexivity; now apply lookup_dict_set_other.
Qed.

(** X20. After [clean_none_values], [get] with a default returns the default
    for every key that was absent or null, returns a flag, a number or a
    text as it was stored, and never returns a null unless the default is
    one. *)
Theorem clean_none_values_get (d : dict) (k : string) (dflt : pyval) :
  distinct_keys d ->
  (lookup k d = None \/ lookup k d = Some PNone ->
   py_get (clean_none_values (PDict d)) k dflt = Ok dflt)
  /\ (forall v, lookup k d = Some v ->
                match v with
                | PBool _ | PInt _ | PFloat _ | PStr _ => True
                | _ => False
                end ->
                py_get (clean_none_values (PDict d)) k dflt = Ok v)
  /\ (dflt <> PNone -> py_get (clean_none_values (PDict d)) k dflt <> Ok PNone).
Proof.
  intros Hnd. rewrite clean_none_values_dict. cbn [py_get].
  rewrite (clean_loop_lookup d [] k Hnd). cbn [lookup]. repeat split.
  - intros [->| ->]; reflexivity.
  - intros v -> Hv. destruct v; try contradiction; reflexivity.
  - intros Hd. destruct (lookup k d) as [v|]; [|congruence].
    destruct v; cbn [cleaned_value]; try congruence.
    rewrite clean_none_values_dict. congruence.
Qed.

Lemma clean_none_values_get_witness :
  py_get (clean_none_values
            (PDict [("job_title", PStr "Data Engineer");
                    ("education_requirements", PNone)]))
    "education_requirements" (PStr "") = Ok (PStr "")
  /\ py_get (clean_none_values
               (PDict [("job_title", PStr "Data Engineer");
                       ("education_requirements", PNone)]))
       "job_title" (PStr "") = Ok (PStr "Data Engineer").
Proof.
  assert (Hnd : distinct_keys
                  [("job_title", PStr "Data Engineer");
                   ("education_requirements", PNone)]).
  { unfold distinct_keys. cbn. repeat constructor; cbn; intuition discriminate. }
  split.
  - destruct (clean_none_values_get _ "education_requirements" (PStr "") Hnd)
      as (Hnull & _). apply Hnull. now right.
  - destruct (clean_none_values_get _ "job_title" (PStr "") Hnd)
      as (_ & Hkept & _). now apply Hkept.
Defined.

Lemma dict_set_fresh {V : Type} (k : string) (v : V) (d : list (string * V)) :
  ~ In k (map fst d) -> dict_set k v d = (d ++ [(k, v)])%list.
Proof.
  induction d as [|[k0 v0] d IH]; intros H; [reflexivity|].
  cbn in *. destruct (String.eqb_spec k k0) as [->|Hk]; [tauto|].
  rewrite IH; tauto.
Qed.

Lemma dict_set_keys {V : Type} (k : string) (v : V) (d : list (string * V)) :
  NoDup (map fst d) -> NoDup (map fst (dict_set k v d)).
Proof.
  intros H. destruct (in_dec string_dec k (map fst d)) as [Hin|Hnot].
  - assert (map fst (dict_set k v d) = map fst d) as ->; [|assumption].
    clear H. induction d as [|[k0 v0] d IH]; cbn in *.
    + now destruct Hin.
    + destruct (String.eqb_spec k k0) as [->|Hk]; cbn; [reflexivity|].
      f_equal. apply IH. destruct Hin as [Heq|Hin]; [congruence | assumption].
  - rewrite (dict_set_fresh k v d Hnot), map_app. cbn.
    apply NoDup_app; [assumption | repeat constructor; intros [] |].
    intros x Hx [<-|[]]. contradiction.
Qed.

Lemma dict_set_In {V : Type} (k k' : string) (v v' : V) (d : list (string * V)) :
  In (k', v') (dict_set k v d) -> (k', v') = (k, v) \/ In (k', v') d.
Proof.
  induction d as [|[k0 v0] d IH]; cbn.
  - intros [H|[]]. now left.
  - destruct (String.eqb_spec k k0) as [->|Hk]; cbn.
    + intros [H|H]; [now left | now right; right].
    + intros [H|H]; [now right; left|]. destruct (IH H); [now left | now right; right].
Qed.

Lemma clean_loop_keys (d result : dict) :
  distinct_keys result -> distinct_keys (clean_loop d result).
Proof.
  unfold distinct_keys, clean_loop. revert result.
  induction d as [|[key value] d IH]; intros result H; [assumption|].
  cbn [fold_left fst snd]. apply IH. rewrite clean_entry_value.
  destruct value; try assumption; now apply dict_set_keys.
Qed.

Lemma clean_loop_values (d result : dict) (k : string) (v : pyval) :
  In (k, v) (clean_loop d result) ->
  In (k, v) result
  \/ exists v0, In (k, v0) d /\ v0 <> PNone /\ v = cleaned_value v0.
Proof.
  unfold clean_loop. revert result.
  induction d as [|[key value] d IH]; intros result H; [now left|].
  cbn [fold_left fst snd] in H. apply IH in H as [H|(v0 & Hin & Hn & ->)].
  - rewrite clean_entry_value in H.
    assert (value <> PNone ->
            In (k, v) (dict_set key (cleaned_value value) result) ->
            In (k, v) result
            \/ exists v0, In (k, v0) ((key, value) :: d)
                          /\ v0 <> PNone /\ v = cleaned_value v0) as Hset.
    { intros Hv Hin. apply dict_set_In in Hin as [[= -> ->]|Hin]; [|now left].
      right. exists value. repeat split; [now left | assumption]. }
    destruct value; try (apply Hset; [discriminate | assumption]). now left.
  - right. exists v0. repeat split; [now right | assumption].
Qed.

Lemma clean_loop_fixed (d result : dict) :
  NoDup (map fst (result ++ d)%list) ->
  Forall (fun kv => snd kv <> PNone /\ cleaned_value (snd kv) = snd kv) d ->
  clean_loop d result = (result ++ d)%list.
Proof.
  unfold clean_loop. revert result.
  induction d as [|[key value] d IH]; intros result Hnd Hfix.
  - now rewrite app_nil_r.
  - inversion Hfix as [|? ? [Hn Hc] Hfix']; subst. cbn [snd] in *.
    cbn [fold_left fst snd]. rewrite clean_entry_value.
    assert (Hfresh : ~ In key (map fst result)).
    { rewrite map_app in Hnd. cbn in Hnd. apply NoDup_remove_2 in Hnd.
      intros Hin. apply Hnd, in_or_app. now left. }
    assert (Hstep : dict_set key (cleaned_value value) result
                    = (result ++ [(key, value)])%list)
      by now rewrite Hc, dict_set_fresh.
    replace (match value with PNone => result | _ => _ end)
      with (result ++ [(key, value)])%list
      by (destruct value; try (now rewrite <- Hstep); congruence).
    rewrite IH; [now rewrite <- app_assoc | | assumption].
    now rewrite <- app_assoc.
Qed.

Lemma clean_items_fixed (l : list pyval) :
  Forall (fun v => clean_none_values (clean_none_values v) = clean_none_values v) l ->
  clean_items clean_none_values (clean_items clean_none_values l)
  = clean_items clean_none_values l.
Proof.
  induction 1 as [|x l Hx _ IH]; [reflexivity|].
  destruct x as [| | | | | |d];
    try (change (clean_items clean_none_values (?x :: l))
           with (x :: clean_items clean_none_values l);
         change (clean_items clean_none_values
                   (?x :: clean_items clean_none_values l))
           with (x :: clean_items clean_none_values
                        (clean_items clean_none_values l));
         now rewrite IH).
  - exact IH.
  - change (clean_items clean_none_values (PDict d :: l))
      with (clean_none_values (PDict d) :: clean_items clean_none_values l).
    pose proof (clean_none_values_dict d) as Hd.
    rewrite Hd in *.
    change (clean_items clean_none_values
              (PDict (clean_loop d []) :: clean_items clean_none_values l))
      with (clean_none_values (PDict (clean_loop d []))
              :: clean_items clean_none_values
                   (clean_items clean_none_values l)).
    now rewrite Hx, IH.
Qed.

Lemma clean_twice (v : pyval) :
  clean_none_values (clean_none_values v) = clean_none_values v
  /\ cleaned_value (cleaned_value v) = cleaned_value v.
Proof.
  induction v as [| | | | |l IH|d IH] using pyval_nested_ind;
    try (split; reflexivity).
  - split; [reflexivity|]. cbn [cleaned_value]. f_equal.
    apply clean_items_fixed. eapply Forall_impl; [|exact IH]. now intros v [H _].
  - assert (H : clean_none_values (clean_none_values (PDict d))
                = clean_none_values (PDict d)).
    { rewrite !clean_none_values_dict.
      rewrite (clean_loop_fixed (clean_loop d []) []); [reflexivity | |].
      - apply (clean_loop_keys d []). constructor.
      - apply Forall_forall. intros [k v] Hin. cbn [snd].
        apply clean_loop_values in Hin as [[]|(v0 & Hin & Hn & ->)].
        rewrite Forall_forall in IH. destruct (IH (k, v0) Hin) as [_ Hc].
        split; [|exact Hc].
        destruct v0; cbn [cleaned_value]; try congruence.
        rewrite clean_none_values_dict. discriminate. }
    split; [exact H|]. cbn [cleaned_value].
    rewrite clean_none_values_dict at 1 2. cbn [cleaned_value].
    now rewrite <- clean_none_values_dict.
Qed.

(** X21. Cleaning is idempotent: cleaning a cleaned value changes nothing. *)
Theorem clean_none_values_idempotent (v : pyval) :
  clean_none_values (clean_none_values v) = clean_none_values v.
Proof. apply clean_twice. Qed.

(** X22. A posting whose education requirement is null makes the education
    match fail with an attribute error; once the posting has been cleaned,
    the match is the one of a posting that states no requirement. *)
Theorem cleaning_restores_education_default (d : dict) (resume_data : pyval) :
  distinct_keys d ->
  lookup "education_requirements" d = Some PNone ->
  _calculate_education_match (PDict d) resume_data = Raise AttributeError
  /\ _calculate_education_match (clean_none_values (PDict d)) resume_data
     = _calculate_education_match (PDict []) resume_data.
Proof.
  intros Hnd Hnull. split.
  - unfold _calculate_education_match. cbn [py_get]. now rewrite Hnull.
  - unfold _calculate_education_match. rewrite clean_none_values_dict.
    cbn [py_get]. rewrite (clean_loop_lookup d [] _ Hnd), Hnull. reflexivity.
Qed.

Lemma cleaning_restores_education_default_witness :
  _calculate_education_match
    (PDict [("job_title", PStr "Data Engineer");
            ("education_requirements", PNone)]) scenario_resume
  = Raise AttributeError
  /\ _calculate_education_match
       (clean_none_values
          (PDict [("job_title", PStr "Data Engineer");
                  ("education_requirements", PNone)])) scenario_resume
     = _calculate_education_match (PDict []) scenario_resume.
Proof.
  apply cleaning_restores_education_default; [|reflexivity].
  unfold distinct_keys. cbn. repeat constructor; cbn; intuition discriminate.
Defined.

Lemma merge_json_dict (b u : dict) :
  merge_json (PDict b) (PDict u) = PDict (merge_loop u b).
Proof.
  unfold merge_loop. cbn [merge_json]. f_equal. revert b.
  induction u as [|[key value] u IH]; intros result; [reflexivity|].
  cbn [fold_left fst snd]. now rewrite <- IH.
Qed.

Lemma merge_entry_value (result : dict) (key : string) (value : pyval) :
  merge_entry merge_json result key value
  = dict_set key (merged_value (lookup key result) value) result.
Proof.
  unfold merge_entry, merged_value.
  destruct value; try reflexivity. now destruct (lookup key result) as [[]|].
Qed.

Lemma lookup_fresh {V : Type} (k : string) (d : list (string * V)) :
  ~ In k (map fst d) -> lookup k d = None.
Proof.
  induction d as [|[k0 v0] d IH]; [reflexivity|].
  cbn. intros H. destruct (String.eqb_spec k k0) as [->|]; [tauto|].
  apply IH. tauto.
Qed.

Lemma merge_loop_lookup (u result : dict) (k : string) :
  distinct_keys u ->
  lookup k (merge_loop u result)
  = match lookup k u with
    | None => lookup k result
    | Some v => Some (merged_value (lookup k result) v)
    end.
Proof.
  unfold distinct_keys, merge_loop. revert result.
  induction u as [|[key value] u IH]; intros result Hnd; [reflexivity|].
  cbn [map fst] in Hnd. inversion Hnd as [|? ? Hnotin Hnd']; subst.
  cbn [fold_left fst snd lookup]. rewrite (IH _ Hnd'), merge_entry_value.
  destruct (String.eqb_spec k key) as [->|Hk].
  - rewrite (lookup_fresh key u Hnotin). apply lookup_dict_set_same.
  - rewrite (lookup_dict_set_other k key _ result Hk). reflexivity.
Qed.

(** X23. In a merge of two records, a key that only the base has keeps the
    base's value, a key of the updates whose value is not a record, or
    whose value in the base is not one, takes the updates' value, and a
    key under which both hold a record holds the merge of the two. *)
Theorem merge_json_precedence (b u : dict) (k : string) :
  distinct_keys u ->
  (lookup k u = None ->
   py_getitem (merge_json (PDict b) (PDict u)) k = py_getitem (PDict b) k)
  /\ (forall v, lookup k u = Some v ->
                (forall x, v <> PDict x) \/ (forall r, lookup k b <> Some (PDict r)) ->
                py_getitem (merge_json (PDict b) (PDict u)) k = Ok v)
  /\ (forall r x, lookup k b = Some (PDict r) -> lookup k u = Some (PDict x) ->
                  py_getitem (merge_json (PDict b) (PDict u)) k
                  = Ok (merge_json (PDict r) (PDict x))).
Proof.
  intros Hnd. rewrite merge_json_dict. cbn [py_getitem].
  rewrite (merge_loop_lookup u b k Hnd). repeat split.
  - now intros ->.
  - intros v -> Hv. f_equal. unfold merged_value.
    destruct v as [| | | | | |x]; try reflexivity.
    destruct (lookup k b) as [[| | | | | |r]|]; try reflexivity.
    destruct Hv as [Hv|Hv]; [now elim (Hv x) | now elim (Hv r)].
  - now intros r x -> ->.
Qed.

Lemma merge_json_precedence_witness :
  py_getitem
    (merge_json
       (PDict [("job_title", PStr "Engineer");
               ("contact", PDict [("email", PStr "a@b.c")])])
       (PDict [("job_title", PStr "Data Engineer");
               ("contact", PDict [("phone", PStr "555")])]))
    "job_title" = Ok (PStr "Data Engineer")
  /\ py_getitem
       (merge_json
          (PDict [("job_title", PStr "Engineer");
                  ("contact", PDict [("email", PStr "a@b.c")])])
          (PDict [("job_title", PStr "Data Engineer");
                  ("contact", PDict [("phone", PStr "555")])]))
       "contact"
     = Ok (PDict [("email", PStr "a@b.c"); ("phone", PStr "555")]).
Proof.
  assert (Hnd : distinct_keys
                  [("job_title", PStr "Data Engineer");
                   ("contact", PDict [("phone", PStr "555")])]).
  { unfold distinct_keys. cbn. repeat constructor; cbn; intuition discriminate. }
  split.
  - destruct (merge_json_precedence
                [("job_title", PStr "Engineer");
                 ("contact", PDict [("email", PStr "a@b.c")])]
                _ "job_title" Hnd) as (_ & Hupd & _).
    apply Hupd; [reflexivity|]. left. discriminate.
  - destruct (merge_json_precedence
                [("job_title", PStr "Engineer");
                 ("contact", PDict [("email", PStr "a@b.c")])]
                _ "contact" Hnd) as (_ & _ & Hboth).
    rewrite (Hboth [("email", PStr "a@b.c")] [("phone", PStr "555")]);
      reflexivity.
Defined.

Lemma dict_set_same {V : Type} (k : string) (v : V) (d : list (string * V)) :
  lookup k d = Some v -> dict_set k v d = d.
Proof.
  induction d as [|[k0 v0] d IH]; cbn; [discriminate|].
  destruct (String.eqb_spec k k0) as [->|Hk].
  - now intros [= ->].
  - intros H. now rewrite IH.
Qed.

Lemma lookup_In {V : Type} (k : string) (v : V) (d : list (string * V)) :
  NoDup (map fst d) -> In (k, v) d -> lookup k d = Some v.
Proof.
  induction d as [|[k0 v0] d IH]; cbn; [tauto|].
  intros Hnd Hin. inversion Hnd as [|? ? Hnotin Hnd']; subst.
  destruct Hin as [[= -> ->]|Hin].
  - now rewrite String.eqb_refl.
  - destruct (String.eqb_spec k k0) as [->|Hk]; [|now apply IH].
    elim Hnotin. now apply (in_map fst _ (k0, v)).
Qed.

Lemma json_value_dict (d : dict) :
  json_value (PDict d)
  <-> NoDup (map fst d) /\ Forall (fun kv => json_value (snd kv)) d.
Proof.
  cbn [json_value]. apply and_iff_compat_l.
  induction d as [|[k v] d IH].
  - split; [constructor | trivial].
  - split.
    + intros [Hv Hd]. constructor; [exact Hv | now apply IH].
    + intros H. inversion H; subst. split; [assumption | now apply IH].
Qed.

Lemma merge_loop_self (u d : dict) :
  Forall (fun kv => lookup (fst kv) d = Some (snd kv)
                    /\ merge_json (snd kv) (snd kv) = snd kv) u ->
  merge_loop u d = d.
Proof.
  unfold merge_loop. induction 1 as [|[key value] u [Hl Hm] _ IH]; [reflexivity|].
  cbn [fold_left fst snd] in *. rewrite merge_entry_value, Hl.
  replace (merged_value (Some value) value) with value
    by (destruct value; try reflexivity; cbn [merged_value]; now rewrite Hm).
  now rewrite (dict_set_same key value d Hl).
Qed.

(** X24. Merging a value with itself gives the value back. *)
Theorem merge_json_self (v : pyval) :
  json_value v -> merge_json v v = v.
Proof.
  induction v as [| | | | |l IH|d IH] using pyval_nested_ind;
    try reflexivity.
  intros Hv. apply json_value_dict in Hv as [Hnd Hall].
  rewrite merge_json_dict. f_equal. apply merge_loop_self.
  rewrite Forall_forall in *. intros [k x] Hin. cbn [fst snd]. split.
  - now apply lookup_In.
  - apply (IH (k, x) Hin). apply (Hall (k, x) Hin).
Qed.

Lemma merge_json_self_witness :
  merge_json
    (PDict [("job_title", PStr "Engineer");
            ("contact", PDict [("email", PStr "a@b.c")])])
    (PDict [("job_title", PStr "Engineer");
            ("contact", PDict [("email", PStr "a@b.c")])])
  = PDict [("job_title", PStr "Engineer");
           ("contact", PDict [("email", PStr "a@b.c")])].
Proof.
  apply merge_json_self. cbn.
  repeat split; repeat constructor; cbn; intuition discriminate.
Defined.

Lemma split_on_nonempty (sep : ascii) (s : string) : split_on sep s <> [].
Proof.
  destruct s as [|c s]; cbn; [discriminate|].
  destruct (Ascii.eqb c sep); [discriminate|].
  destruct (split_on sep s); discriminate.
Qed.

Lemma split_on_single (sep : ascii) (a : string) :
  has_char sep a = false -> split_on sep a = [a].
Proof.
  induction a as [|x a IH]; cbn; [reflexivity|].
  intros H. apply orb_false_elim in H as [-> Ha]. now rewrite (IH Ha).
Qed.

Lemma split_on_app (sep : ascii) (a p : string) :
  has_char sep a = false ->
  split_on sep (a ++ String sep p) = a :: split_on sep p.
Proof.
  induction a as [|x a IH]; cbn.
  - intros _. now rewrite Ascii.eqb_refl.
  - intros H. apply orb_false_elim in H as [-> Ha]. now rewrite (IH Ha).
Qed.

Lemma walk_keys_stops (keys : list string) (v : pyval) :
  keys <> [] -> negb (truthy v) || negb (is_dict v) = true ->
  walk_keys keys v = None.
Proof.
  destruct keys as [|key keys]; [congruence|]. intros _.
  destruct v as [| | | | | |[|e d]]; try reflexivity. discriminate.
Qed.

(** X25. A path of one key gives the value stored under it, or the default
    when the key is absent or holds a null; a path [a.p] is the path [p]
    followed from the value under [a]. *)
Theorem safe_get_path (d : dict) (a p : string) (default : pyval) :
  has_char "." a = false ->
  safe_get (PDict d) a default
  = match lookup a d with
    | None | Some PNone => default
    | Some v => v
    end
  /\ safe_get (PDict d) (a ++ "." ++ p) default
     = match lookup a d with
       | None => default
       | Some x => safe_get x p default
       end.
Proof.
  intros Ha. unfold safe_get at 1 2. split.
  - rewrite (split_on_single _ a Ha).
    destruct d as [|e d]; [reflexivity|].
    cbn [truthy is_dict negb orb walk_keys].
    now destruct (lookup a (e :: d)) as [[]|].
  - change (a ++ "." ++ p)%string with (a ++ String "." p)%string.
    rewrite (split_on_app _ a p Ha).
    destruct d as [|e d]; [reflexivity|].
    cbn [truthy is_dict negb orb walk_keys].
    destruct (lookup a (e :: d)) as [x|]; [|reflexivity].
    unfold safe_get.
    destruct (negb (truthy x) || negb (is_dict x)) eqn:Hx; [|reflexivity].
    now rewrite (walk_keys_stops _ x (split_on_nonempty _ p) Hx).
Qed.

Lemma safe_get_path_witness :
  safe_get
    (PDict [("person", PDict [("address", PDict [("city", PStr "Pune")])])])
    "person.address.city" (PStr "unknown")
  = safe_get (PDict [("address", PDict [("city", PStr "Pune")])])
      "address.city" (PStr "unknown").
Proof.
  exact (proj2 (safe_get_path
                  [("person", PDict [("address", PDict [("city", PStr "Pune")])])]
                  "person" "address.city" (PStr "unknown") eq_refl)).
Defined.
